(** * hrtfdata / hartufo: plane facades and the specification-driven dataset

    A shallow embedding of [src/hartufo/planar.py] (the plane mixins) and of
    [src/hrtfdata/torch/full.py] (the [HRTFDataset] assembler), with the
    properties of the specification stated over it.

    Conventions.
    - Python exceptions are values of [Py.exn]; fallible code returns
      [Py.result].
    - A Python [dict] is an insertion-ordered association list ([Py.dict]).
    - Error messages are the source's, their inner double quotes written
      as single quotes.
    - Angles are degrees.  They are [float]s in the source and exact
      rationals ([Q]) here: rounding is outside the model, the tolerance
      tests of numpy are written out. *)

From Stdlib Require Import List String Ascii ZArith QArith Qabs Bool Lia Sorted Lqa.
Import ListNotations.
Open Scope string_scope.

(** ** Python values shared by both files *)

Module Py.

Inductive exn : Type :=
| ValueError (msg : string)
| IndexError
| TypeError
| KeyError
| AttributeError
| UnboundLocalError.

Inductive result (A : Type) : Type :=
| Ok (a : A)
| Raise (e : exn).
Arguments Ok {A} a.
Arguments Raise {A} e.

Definition bind {A B : Type} (r : result A) (k : A -> result B) : result B :=
  match r with
  | Ok a => k a
  | Raise e => Raise e
  end.

Definition is_ok {A : Type} (r : result A) : bool :=
  match r with Ok _ => true | Raise _ => false end.

(** [isinstance(e, ValueError)]: the configuration errors of the source. *)
Definition is_ValueError {A : Type} (r : result A) : bool :=
  match r with Raise (ValueError _) => true | _ => false end.

(** *** Insertion-ordered dictionaries *)

Definition dict (V : Type) : Type := list (string * V).

Section Dict.
Context {V : Type}.

Definition keys (d : dict V) : list string := map fst d.
Definition values (d : dict V) : list V := map snd d.

Fixpoint get (k : string) (d : dict V) : option V :=
  match d with
  | [] => None
  | (k', v) :: d' => if String.eqb k k' then Some v else get k d'
  end.

(** [k in d] *)
Definition contains (k : string) (d : dict V) : bool :=
  existsb (String.eqb k) (keys d).

(** [d[k] = v]: an existing key keeps its position. *)
Fixpoint set (k : string) (v : V) (d : dict V) : dict V :=
  match d with
  | [] => [(k, v)]
  | (k', v') :: d' =>
      if String.eqb k k' then (k', v) :: d' else (k', v') :: set k v d'
  end.

(** [{**d1, **d2}] *)
Definition update (d1 d2 : dict V) : dict V :=
  fold_left (fun acc kv => set (fst kv) (snd kv) acc) d2 d1.

End Dict.

(** [x in (a, b, ...)] on strings *)
Definition str_in (x : string) (l : list string) : bool :=
  existsb (String.eqb x) l.

End Py.

Import Py.

Declare Scope py_scope.
Delimit Scope py_scope with py.
Notation "x <- c ;; k" := (Py.bind c (fun x => k))
  (at level 61, c at next level, right associativity) : py_scope.
Notation "c ;;; k" := (Py.bind c (fun _ => k))
  (at level 61, right associativity) : py_scope.

(** ** [src/hartufo/planar.py] *)

Module Planar.

(** An angle argument: [None], or a tuple / array of degrees. *)
Definition angles : Type := option (list Q).

(** A pair returned by the conversion helpers. *)
Definition angle_pair : Type := (angles * angles)%type.

(** The conversion functions of [hartufo/util.py], imported by the source
    and not part of it. *)
Record Util : Type := {
  lateral_vertical_from_yaw : list Q -> Q -> angle_pair;
  lateral_vertical_from_pitch : list Q -> Q -> angle_pair;
  lateral_vertical_from_roll : list Q -> Q -> angle_pair;
  azimuth_elevation_from_yaw : list Q -> Q -> angle_pair;
  azimuth_elevation_from_pitch : list Q -> Q -> angle_pair;
  azimuth_elevation_from_roll : list Q -> Q -> angle_pair
}.

Section Conversion.
Variable util : Util.

(** [InterauralPlaneMixin._lateral_vertical_from_yaw] *)
Definition _lateral_vertical_from_yaw (yaw_angles : angles) (plane_offset : Q)
  : angle_pair :=
  match yaw_angles with
  | None => (None, Some [plane_offset - 180; plane_offset])
  | Some a => lateral_vertical_from_yaw util a plane_offset
  end.

(** [InterauralPlaneMixin._lateral_vertical_from_pitch] *)
Definition _lateral_vertical_from_pitch (pitch_angles : angles) (plane_offset : Q)
  : angle_pair :=
  match pitch_angles with
  | None => (Some [plane_offset], None)
  | Some a => lateral_vertical_from_pitch util a plane_offset
  end.

(** [InterauralPlaneMixin._lateral_vertical_from_roll] *)
Definition _lateral_vertical_from_roll (roll_angles : angles) (plane_offset : Q)
  : angle_pair :=
  match roll_angles with
  | None => (None, Some [plane_offset - 90; plane_offset + 90])
  | Some a => lateral_vertical_from_roll util a plane_offset
  end.

(** [SphericalPlaneMixin._azimuth_elevation_from_yaw] *)
Definition _azimuth_elevation_from_yaw (yaw_angles : angles) (plane_offset : Q)
  : angle_pair :=
  match yaw_angles with
  | None => (None, Some [plane_offset])
  | Some a => azimuth_elevation_from_yaw util a plane_offset
  end.

(** [SphericalPlaneMixin._azimuth_elevation_from_pitch] *)
Definition _azimuth_elevation_from_pitch (pitch_angles : angles) (plane_offset : Q)
  : angle_pair :=
  match pitch_angles with
  | None => (Some [plane_offset - 180; plane_offset], None)
  | Some a => azimuth_elevation_from_pitch util a plane_offset
  end.

(** [SphericalPlaneMixin._azimuth_elevation_from_roll] *)
Definition _azimuth_elevation_from_roll (roll_angles : angles) (plane_offset : Q)
  : angle_pair :=
  match roll_angles with
  | None => (Some [plane_offset - 90; plane_offset + 90], None)
  | Some a => azimuth_elevation_from_roll util a plane_offset
  end.

(** [plane_offset != 0] *)
Definition nonzero (plane_offset : Q) : bool := negb (Qeq_bool plane_offset 0).

(** The plane / offset validation that opens
    [InterauralPlaneMixin.__init__] (lines 135-149): the
    [(lateral_angles, vertical_angles)] it binds, or the error raised. *)
Definition interaural_plane_angles
    (plane : string) (plane_angles : angles) (plane_offset : Q)
  : result angle_pair :=
  if plane =? "horizontal" then
    if nonzero plane_offset then
      Raise (ValueError "Only the horizontal plane at vertical angle 0 is available in an interaural coordinate dataset")
    else Ok (_lateral_vertical_from_yaw plane_angles plane_offset)
  else if plane =? "median" then
    Ok (_lateral_vertical_from_pitch plane_angles plane_offset)
  else if plane =? "frontal" then
    if nonzero plane_offset then
      Raise (ValueError "Only the frontal plane at vertical angles +/-90 is available in an interaural coordinate dataset")
    else Ok (_lateral_vertical_from_roll plane_angles plane_offset)
  else if plane =? "interaural" then
    Ok (_lateral_vertical_from_yaw plane_angles plane_offset)
  else
    if negb (str_in plane ["horizontal"; "median"; "frontal"; "interaural"]) then
      Raise (ValueError "Unknown plane '{}', needs to be 'horizontal', 'median', 'frontal' or 'interaural'.")
    else Raise UnboundLocalError.

(** The validation that opens [SphericalPlaneMixin.__init__]
    (lines 187-200): [(azimuth_angles, elevation_angles)] or the error. *)
Definition spherical_plane_angles
    (plane : string) (plane_angles : angles) (plane_offset : Q)
  : result angle_pair :=
  if plane =? "horizontal" then
    Ok (_azimuth_elevation_from_yaw plane_angles plane_offset)
  else if plane =? "median" then
    if nonzero plane_offset then
      Raise (ValueError "Only the median plane at azimuth 0 is available in a spherical coordinate dataset")
    else Ok (_azimuth_elevation_from_pitch plane_angles plane_offset)
  else if plane =? "frontal" then
    if nonzero plane_offset then
      Raise (ValueError "Only the frontal plane at azimuth +/-90 is available in a spherical coordinate dataset")
    else Ok (_azimuth_elevation_from_roll plane_angles plane_offset)
  else if plane =? "vertical" then
    Ok (_azimuth_elevation_from_pitch plane_angles plane_offset)
  else
    Raise (ValueError "Unknown plane '{}', needs to be 'horizontal', 'median', 'frontal' or 'vertical'.").

End Conversion.

(** *** Specifications handed to the underlying dataset *)

(** The values of a modality's configuration record.  [CTransform] stands
    for the reference to the dataset's one plane-transform object: the
    ['transform'] entry aliases [self._planar_transform], it is no copy. *)
Inductive cfg : Type :=
| CNone
| CBool (b : bool)
| CStr (s : string)
| CNum (q : Q)
| CAngles (a : list Q)
| CTransform.

Definition of_angles (a : angles) : cfg :=
  match a with None => CNone | Some l => CAngles l end.

Definition of_num (x : option Q) : cfg :=
  match x with None => CNone | Some q => CNum q end.

(** modality name -> configuration record *)
Definition specification : Type := dict (dict cfg).

Inductive coordinates : Type := Interaural | Spherical.

(** Modelled from the spec: the state of a Plane Transform
    ([hartufo/transforms/hrirs.py] is not among the sources): plane name,
    offset, positive_angles flag, coordinate system. *)
Record PlaneTransform : Type := {
  coordinate_system : coordinates;
  plane : string;
  plane_offset : Q;
  positive_angles : bool
}.

(** [InterauralPlaneTransform(plane, plane_offset, positive_angles)] *)
Definition InterauralPlaneTransform (p : string) (o : Q) (pos : bool) : PlaneTransform :=
  {| coordinate_system := Interaural; plane := p; plane_offset := o; positive_angles := pos |}.

(** [SphericalPlaneTransform(plane, plane_offset, positive_angles)] *)
Definition SphericalPlaneTransform (p : string) (o : Q) (pos : bool) : PlaneTransform :=
  {| coordinate_system := Spherical; plane := p; plane_offset := o; positive_angles := pos |}.

(** [transform.positive_angles = value] *)
Definition with_positive_angles (t : PlaneTransform) (value : bool) : PlaneTransform :=
  {| coordinate_system := coordinate_system t;
     plane := plane t;
     plane_offset := plane_offset t;
     positive_angles := value |}.

(** Modelled from the spec: the fields of the DatasetView that the base
    class ([hartufo/full.py], not among the sources) leaves on [self];
    [store] is the type of one stored example record. *)
Record DatasetView (store : Type) : Type := {
  subject_ids : list Z;
  sides : list string;
  _features : list store;
  _targets : list store;
  _groups : list store;
  fundamental_angles : list Q;
  orthogonal_angles : list Q;
  _selection_mask : list (list bool);
  hrir_samplerate : option Q;
  hrtf_frequencies : option (list Q);
  _specification : specification
}.
Arguments subject_ids {store} d.
Arguments sides {store} d.
Arguments _features {store} d.
Arguments _targets {store} d.
Arguments _groups {store} d.
Arguments fundamental_angles {store} d.
Arguments orthogonal_angles {store} d.
Arguments _selection_mask {store} d.
Arguments hrir_samplerate {store} d.
Arguments hrtf_frequencies {store} d.
Arguments _specification {store} d.

(** [s.split(sep)[0]]: the part of [s] before the first [sep]. *)
Fixpoint split_head (sep s : string) : string :=
  if String.prefix sep s then ""
  else match s with
       | EmptyString => ""
       | String c s' => String c (split_head sep s')
       end.

Module PlaneMixin.
Section PlaneMixin.
Variable store : Type.
(** keyword arguments passed on to the base class *)
Variable kwargs : Type.
(** the base-class constructor, called by [super().__init__] with the
    unpacked [specs] and [kwargs] *)
Variable base_init : dict specification -> kwargs -> result (DatasetView store).
(** [PlaneTransform.calc_plane_angles] *)
Variable calc_plane_angles :
  PlaneTransform -> list Q -> list Q -> list (list bool) -> list Q.

(** The object after [PlaneMixin.__init__]: the mixin's own fields and
    the fields of the base class. *)
Record t : Type := {
  _plane : string;
  _plane_offset : Q;
  _domain : string;
  _planar_transform : PlaneTransform;
  view : DatasetView store;
  plane_angles : list Q
}.

(** line 35 *)
Definition hrirs_spec (domain side : string) (distance : cfg)
    (fundamental orthogonal : angles)
    (hrir_offset hrir_scaling hrir_samplerate hrir_length : option Q)
    (hrir_min_phase : bool) : specification :=
  [("hrirs",
    [("fundamental_angles", of_angles fundamental);
     ("orthogonal_angles", of_angles orthogonal);
     ("side", CStr side);
     ("domain", CStr domain);
     ("distance", distance);
     ("additive_scale_factor", of_num hrir_offset);
     ("multiplicative_scale_factor", of_num hrir_scaling);
     ("samplerate", of_num hrir_samplerate);
     ("length", of_num hrir_length);
     ("min_phase", CBool hrir_min_phase);
     ("transform", CTransform)])].

(** lines 38-40: the first name of [other_specs] that takes the role
    of the HRIRs *)
Definition role_taken (hrir_role : string) (other_specs : dict specification)
  : option string :=
  find (fun spec_name => hrir_role =? split_head "_spec" spec_name)
       (keys other_specs).

Definition __init__
    (plane domain side : string) (distance : cfg) (plane_offset : Q)
    (fundamental orthogonal : angles) (planar_transform : PlaneTransform)
    (hrir_offset hrir_scaling hrir_samplerate hrir_length : option Q)
    (hrir_min_phase : bool) (hrir_role : string)
    (other_specs : option (dict specification)) (kw : kwargs)
  : result t :=
  if negb (str_in plane ["horizontal"; "median"; "frontal"; "vertical"; "interaural"]) then
    Raise (ValueError "Unknown plane '{}', needs to be 'horizontal', 'median', 'frontal', 'vertical' or 'interaural'.")
  else
    let hs := hrirs_spec domain side distance fundamental orthogonal
                hrir_offset hrir_scaling hrir_samplerate hrir_length hrir_min_phase in
    let other_specs := match other_specs with None => [] | Some o => o end in
    match role_taken hrir_role other_specs with
    | Some spec_name =>
        Raise (ValueError ("No " ++ spec_name ++ " should be given since that role is already taken by the HRIRs"))
    | None =>
        let specs := update [(hrir_role ++ "_spec", hs)] other_specs in
        (v <- base_init specs kw ;;
         Ok {| _plane := plane;
               _plane_offset := plane_offset;
               _domain := domain;
               _planar_transform := planar_transform;
               view := v;
               plane_angles :=
                 calc_plane_angles planar_transform (fundamental_angles v)
                   (orthogonal_angles v) (_selection_mask v) |})%py
    end.

(** the [positive_angles] property, read *)
Definition get_positive_angles (self : t) : bool :=
  positive_angles (_planar_transform self).

(** the [positive_angles] property, written (lines 51-54) *)
Definition set_positive_angles (self : t) (value : bool) : t :=
  let transform := with_positive_angles (_planar_transform self) value in
  {| _plane := _plane self;
     _plane_offset := _plane_offset self;
     _domain := _domain self;
     _planar_transform := transform;
     view := view self;
     plane_angles :=
       calc_plane_angles transform (fundamental_angles (view self))
         (orthogonal_angles (view self)) (_selection_mask (view self)) |}.

Variable util : Util.

(** [InterauralPlaneMixin.__init__]: the fundamental angles are the
    vertical ones, the orthogonal angles the lateral ones. *)
Definition InterauralPlaneMixin__init__
    (plane domain side : string) (plane_angles : angles) (plane_offset : Q)
    (positive : bool) (distance : cfg)
    (hrir_offset hrir_scaling hrir_samplerate hrir_length : option Q)
    (hrir_min_phase : bool) (hrir_role : string)
    (other_specs : option (dict specification)) (kw : kwargs)
  : result t :=
  (lv <- interaural_plane_angles util plane plane_angles plane_offset ;;
   let '(lateral_angles, vertical_angles) := lv in
   let plane_transform := InterauralPlaneTransform plane plane_offset positive in
   __init__ plane domain side distance plane_offset vertical_angles lateral_angles
     plane_transform hrir_offset hrir_scaling hrir_samplerate hrir_length
     hrir_min_phase hrir_role other_specs kw)%py.

(** [SphericalPlaneMixin.__init__] *)
Definition SphericalPlaneMixin__init__
    (plane domain side : string) (plane_angles : angles) (plane_offset : Q)
    (positive : bool) (distance : cfg)
    (hrir_offset hrir_scaling hrir_samplerate hrir_length : option Q)
    (hrir_min_phase : bool) (hrir_role : string)
    (other_specs : option (dict specification)) (kw : kwargs)
  : result t :=
  (ae <- spherical_plane_angles util plane plane_angles plane_offset ;;
   let '(azimuth_angles, elevation_angles) := ae in
   let plane_transform := SphericalPlaneTransform plane plane_offset positive in
   __init__ plane domain side distance plane_offset azimuth_angles elevation_angles
     plane_transform hrir_offset hrir_scaling hrir_samplerate hrir_length
     hrir_min_phase hrir_role other_specs kw)%py.

End PlaneMixin.

Arguments _plane {store} t.
Arguments _plane_offset {store} t.
Arguments _domain {store} t.
Arguments _planar_transform {store} t.
Arguments view {store} t.
Arguments plane_angles {store} t.
Arguments __init__ {store kwargs}.
Arguments InterauralPlaneMixin__init__ {store kwargs}.
Arguments SphericalPlaneMixin__init__ {store kwargs}.
Arguments get_positive_angles {store}.
Arguments set_positive_angles {store}.
End PlaneMixin.
End Planar.

(** A base class to run the plane facades on: it accepts every
    specification and holds no example. *)
Module PlanarFixture.
Import Planar.

Definition base_init (specs : dict specification) (kw : unit)
  : result (DatasetView unit) :=
  Ok {| subject_ids := [];
        sides := [];
        _features := [];
        _targets := [];
        _groups := [];
        fundamental_angles := [];
        orthogonal_angles := [];
        _selection_mask := [];
        hrir_samplerate := None;
        hrtf_frequencies := None;
        _specification := [] |}.

(** a plane transform whose plane angles are the fundamental angles *)
Definition calc_plane_angles (t : PlaneTransform) (fundamental orthogonal : list Q)
    (mask : list (list bool)) : list Q :=
  fundamental.

(** conversions that return what they are given *)
Definition util : Util :=
  {| lateral_vertical_from_yaw := fun a _ => (Some a, Some a);
     lateral_vertical_from_pitch := fun a _ => (Some a, Some a);
     lateral_vertical_from_roll := fun a _ => (Some a, Some a);
     azimuth_elevation_from_yaw := fun a _ => (Some a, Some a);
     azimuth_elevation_from_pitch := fun a _ => (Some a, Some a);
     azimuth_elevation_from_roll := fun a _ => (Some a, Some a) |}.

End PlanarFixture.

(** ** numpy and list primitives used by [src/hrtfdata/torch/full.py] *)

Module Np.

(** default tolerances of [np.isclose] / [np.allclose] *)
Definition rtol : Q := 1 # 100000.
Definition atol : Q := 1 # 100000000.

(** [np.isclose(a, b)]: [|a - b| <= atol + rtol * |b|] *)
Definition isclose (a b : Q) : bool :=
  Qle_bool (Qabs (a - b)) (atol + rtol * Qabs b).

(** [np.allclose(a, b)] on two arrays of one length *)
Definition allclose (a b : list Q) : bool :=
  forallb (fun xy => isclose (fst xy) (snd xy)) (combine a b).

(** [-np.flip(a)] *)
Definition neg_flip (a : list Q) : list Q := map Qopp (rev a).

End Np.

Module PyList.

Section PyList.
Context {A : Type}.

(** [l[i]] for an [int]: negative indices count from the end. *)
Definition item (l : list A) (i : Z) : result A :=
  let n := Z.of_nat (List.length l) in
  let j := (if i <? 0 then i + n else i)%Z in
  if ((j <? 0) || (n <=? j))%Z then Raise IndexError
  else match nth_error l (Z.to_nat j) with
       | Some x => Ok x
       | None => Raise IndexError
       end.

(** One bound of [slice.indices(n)], as CPython adjusts it. *)
Definition adjust (bound : option Z) (n step : Z) (unset_pos unset_neg : Z) : Z :=
  let lower := (if step <? 0 then -1 else 0)%Z in
  let upper := (if step <? 0 then n - 1 else n)%Z in
  match bound with
  | None => if (step <? 0)%Z then unset_neg else unset_pos
  | Some b =>
      if (b <? 0)%Z then Z.max (b + n) lower else Z.min b upper
  end.

(** The indices selected by [slice(start, stop, step)] on [n] items. *)
Definition slice_indices (start stop step : option Z) (n : Z) : result (list Z) :=
  let step := match step with None => 1%Z | Some s => s end in
  if (step =? 0)%Z then Raise (ValueError "slice step cannot be zero")
  else
    let first := adjust start n step 0%Z (n - 1)%Z in
    let last := adjust stop n step n (-1)%Z in
    let count :=
      (if 0 <? step
       then (if first <? last then (last - first - 1) / step + 1 else 0)
       else (if last <? first then (first - last - 1) / (- step) + 1 else 0))%Z in
    Ok (map (fun k => (first + Z.of_nat k * step)%Z) (seq 0 (Z.to_nat count))).

(** [l[start:stop:step]] *)
Definition slice (l : list A) (start stop step : option Z) : result (list A) :=
  (idx <- slice_indices start stop step (Z.of_nat (List.length l)) ;;
   Ok (flat_map (fun i => match nth_error l (Z.to_nat i) with
                          | Some x => [x]
                          | None => []
                          end) idx))%py.

(** [zip(a, b, c)] *)
Definition zip3 {B C : Type} (a : list A) (b : list B) (c : list C)
  : list (A * B * C) :=
  combine (combine a b) c.

End PyList.

(** a list comprehension whose body may raise *)
Fixpoint traverse {A B : Type} (f : A -> result B) (l : list A) : result (list B) :=
  match l with
  | [] => Ok []
  | x :: l' => (y <- f x ;; ys <- traverse f l' ;; Ok (y :: ys))%py
  end.

(** An index between [-len] and [len - 1] is valid. *)
Definition valid_index (i : Z) (n : nat) : Prop :=
  (- Z.of_nat n <= i < Z.of_nat n)%Z.

(** The position that a valid index denotes. *)
Definition position (i : Z) (n : nat) : nat :=
  Z.to_nat (if (i <? 0)%Z then i + Z.of_nat n else i).

(** [sorted(set(l))] on integers *)
Fixpoint insert_unique (x : Z) (l : list Z) : list Z :=
  match l with
  | [] => [x]
  | y :: l' =>
      if (x <? y)%Z then x :: l
      else if (x =? y)%Z then l
      else y :: insert_unique x l'
  end.

Definition sorted_set (l : list Z) : list Z :=
  fold_right insert_unique [] l.

End PyList.

(** ** [src/hrtfdata/torch/full.py] *)

Module Full.

(** The values found in a modality's configuration record. *)
Inductive cfg : Type :=
| CNone
| CBool (b : bool)
| CStr (s : string)
| CNum (q : Q)
| CAngles (a : list Q)
| CNames (names : list string).

(** [d.get(k, default)] *)
Definition cfg_get (k : string) (default : cfg) (d : dict cfg) : cfg :=
  match get k d with Some v => v | None => default end.

(** modality name -> configuration record *)
Definition specification : Type := dict (dict cfg).

(** [subject_ids]: a collection of ids, or a string. *)
Inductive id_selection : Type :=
| Ids (ids : list Z)
| IdsStr (s : string).

(** a (subject, side) pair of the catalog *)
Definition ear_id : Type := (Z * string)%type.

(** The catalog service [datapoint.query]. *)
Module Query.
Record t : Type := {
  (** [specification_based_ids(spec, include_subjects=None, exclude_subjects=None)] *)
  specification_based_ids :
    specification -> option id_selection -> option (list Z) -> list ear_id;
  collection_id : string
}.
End Query.

(** What examples are made of; [data] is the type of the images and
    arrays of the measurement providers. *)
#[warnings="-register-all"]
Inductive value (data : Type) : Type :=
| VData (d : data)
| VInt (z : Z)
| VStr (s : string)
| VEmptyArray
| VTuple (l : list (value data)).
Arguments VData {data} d.
Arguments VInt {data} z.
Arguments VStr {data} s.
Arguments VEmptyArray {data}.
Arguments VTuple {data} l.

(** row angle -> column angles *)
Definition angle_map : Type := list (Q * list Q).

(** The collaborators reached through [datapoint]; their own failures are
    outside the model. *)
Module DataPoint.
Record t (data : Type) : Type := {
  query : Query.t;
  (** [isinstance(datapoint, SofaSphericalDataPoint)] *)
  is_spherical : bool;
  hrir_angle_indices : Z -> cfg -> cfg -> angle_map * list nat * list nat;
  hrir_samplerate : Z -> Q;
  hrir_length : Z -> Z;
  hrtf_frequencies : Z -> list Q;
  (** [pinna_image(subject, side=, rear=)] *)
  pinna_image : Z -> string -> cfg -> data;
  (** [anthropomorphic_data(subject, side=, select=)] *)
  anthropomorphic_data : Z -> string -> cfg -> data;
  (** [hrir(subject, side=, domain=, row_indices=, column_indices=)] *)
  hrir : Z -> string -> cfg -> list nat -> list nat -> data
}.
Arguments query {data} t.
Arguments is_spherical {data} t.
Arguments hrir_angle_indices {data} t.
Arguments hrir_samplerate {data} t.
Arguments hrir_length {data} t.
Arguments hrtf_frequencies {data} t.
Arguments pinna_image {data} t.
Arguments anthropomorphic_data {data} t.
Arguments hrir {data} t.
End DataPoint.

(** One example as returned by [__getitem__]: the
    [{'features': ..., 'target': ..., 'group': ...}] record. *)
Record example (data : Type) : Type := {
  features : value data;
  target : value data;
  group : value data
}.
Arguments features {data} e.
Arguments target {data} e.
Arguments group {data} e.

(** What [idx] can be in [__getitem__]: an [int], a [slice], or a
    sequence of indices (list, tuple or array). *)
Inductive index : Type :=
| IInt (i : Z)
| ISlice (start stop step : option Z)
| ISeq (indices : list Z).

Module HRTFDataset.
Section HRTFDataset.
Context {data : Type}.

(** a callable transform *)
Definition transform : Type := value data -> value data.

(** The attributes of the object.  [sides] and [hrir_length] are not
    assigned on the empty path: [None] there. *)
Record t : Type := {
  _image_transform : option transform;
  _measurement_transform : option transform;
  _hrir_transform : option transform;
  _query : Query.t;
  _exclude_ids : option (list Z);
  _specification : specification;
  subject_ids : list Z;
  sides : option (list string);
  hrir_samplerate : option Q;
  hrir_length : option Z;
  hrtf_frequencies : option (list Q);
  _features : list (dict (value data));
  _targets : list (dict (value data));
  _groups : list (dict (value data));
  _selected_angles : angle_map;
  row_angles : list Q;
  column_angles : list Q
}.

(** lines 41-42: the exclude-list after the default is applied *)
Definition default_exclude_ids
    (subject_ids : option id_selection) (exclude_ids : option (list Z))
  : option (list Z) :=
  match subject_ids, exclude_ids with
  | Some (Ids _), None => Some []
  | _, _ => exclude_ids
  end.

(** [spec = {} if spec is None] *)
Definition or_empty (spec : option specification) : specification :=
  match spec with None => [] | Some s => s end.

(** lines 50-54: the combined specification, or the error of line 52 *)
Definition combined_specification
    (feature_spec target_spec group_spec : specification)
    (subject_requirements : option specification)
  : result specification :=
  let spec := update (update feature_spec target_spec) group_spec in
  match spec with
  | [] => Raise (ValueError "At least one specification should not be empty")
  | _ :: _ =>
      Ok (match subject_requirements with
          | Some r => update spec r
          | None => spec
          end)
  end.

(** lines 81-91: the symmetry that a [both-] side needs *)
Definition check_both_sides
    (spherical : bool) (side : string) (row_angles column_angles : list Q)
  : result unit :=
  if String.prefix "both-" side then
    if spherical then
      match row_angles with
      | [] => Raise IndexError
      | first :: _ =>
          let start_idx := if Np.isclose first (-180) then 1%nat else 0%nat in
          let rows := skipn start_idx row_angles in
          if negb (Np.allclose rows (Np.neg_flip rows)) then
            Raise (ValueError ("Only datasets with symmetric azimuths can use " ++ side ++ " sides."))
          else Ok tt
      end
    else
      if negb (Np.allclose column_angles (Np.neg_flip column_angles)) then
        Raise (ValueError ("Only datasets with symmetric lateral angles can use " ++ side ++ " sides."))
      else Ok tt
  else Ok tt.

(** lines 73-96: the selected angles, the row and column angles and
    the row and column indices *)
Definition select_angles
    (datapoint : DataPoint.t data) (specification : specification)
    (first_subject : Z)
  : result (angle_map * list Q * list Q * list nat * list nat) :=
  match get "hrirs" specification with
  | Some hrirs =>
      let '(selected_angles, row_indices, column_indices) :=
        DataPoint.hrir_angle_indices datapoint first_subject
          (cfg_get "row_angles" CNone hrirs)
          (cfg_get "column_angles" CNone hrirs) in
      let row_angles := map fst selected_angles in
      match map snd selected_angles with
      | [] => Raise IndexError
      | column_angles :: _ =>
          match cfg_get "side" (CStr "") hrirs with
          | CStr side =>
              (check_both_sides (DataPoint.is_spherical datapoint) side
                 row_angles column_angles ;;;
               Ok (selected_angles, row_angles, column_angles,
                   row_indices, column_indices))%py
          | _ => Raise AttributeError
          end
      end
  | None => Ok ([], [], [], [], [])
  end.

(** lines 108-120: the record of one (subject, side) for one role *)
Definition subject_data
    (datapoint : DataPoint.t data) (spec : specification)
    (subject : Z) (side : string) (row_indices column_indices : list nat)
  : dict (value data) :=
  let d := [] in
  let d := match get "images" spec with
           | Some c =>
               set "images"
                 (VData (DataPoint.pinna_image datapoint subject side
                           (cfg_get "rear" (CBool false) c))) d
           | None => d
           end in
  let d := match get "anthropometry" spec with
           | Some c =>
               set "anthropometry"
                 (VData (DataPoint.anthropomorphic_data datapoint subject side
                           (cfg_get "select" CNone c))) d
           | None => d
           end in
  let d := match get "hrirs" spec with
           | Some c =>
               set "hrirs"
                 (VData (DataPoint.hrir datapoint subject side
                           (cfg_get "domain" (CStr "time") c)
                           row_indices column_indices)) d
           | None => d
           end in
  let d := if contains "subject" spec then set "subject" (VInt subject) d else d in
  let d := if contains "side" spec then set "side" (VStr side) d else d in
  let d := if contains "collection" spec
           then set "collection"
                  (VStr (Query.collection_id (DataPoint.query datapoint))) d
           else d in
  d.

Definition __init__
    (datapoint : DataPoint.t data)
    (feature_spec : specification)
    (target_spec group_spec : option specification)
    (subject_ids : option id_selection)
    (subject_requirements : option specification)
    (exclude_ids : option (list Z))
    (image_transform measurement_transform hrir_transform : option transform)
  : result t :=
  let query := DataPoint.query datapoint in
  let exclude_ids := default_exclude_ids subject_ids exclude_ids in
  let target_spec := or_empty target_spec in
  let group_spec := or_empty group_spec in
  (specification <-
     combined_specification feature_spec target_spec group_spec subject_requirements ;;
   let ear_ids :=
     Query.specification_based_ids query specification subject_ids exclude_ids in
   match ear_ids with
   | [] =>
       match Query.specification_based_ids query specification None None with
       | [] =>
           Raise (ValueError "Empty dataset. Check if its configuration and paths are correct.")
       | _ :: _ =>
           Ok {| _image_transform := image_transform;
                 _measurement_transform := measurement_transform;
                 _hrir_transform := hrir_transform;
                 _query := query;
                 _exclude_ids := exclude_ids;
                 _specification := specification;
                 subject_ids := [];
                 sides := None;
                 hrir_samplerate := None;
                 hrir_length := None;
                 hrtf_frequencies := None;
                 _features := [];
                 _targets := [];
                 _groups := [];
                 _selected_angles := [];
                 row_angles := [];
                 column_angles := [] |}
       end
   | (first_subject, _) :: _ =>
       sel <- select_angles datapoint specification first_subject ;;
       let '(selected_angles, rows, columns, row_indices, column_indices) := sel in
       let store spec :=
         map (fun ear : ear_id =>
                subject_data datapoint spec (fst ear) (snd ear)
                  row_indices column_indices) ear_ids in
       Ok {| _image_transform := image_transform;
             _measurement_transform := measurement_transform;
             _hrir_transform := hrir_transform;
             _query := query;
             _exclude_ids := exclude_ids;
             _specification := specification;
             subject_ids := map fst ear_ids;
             sides := Some (map snd ear_ids);
             hrir_samplerate := Some (DataPoint.hrir_samplerate datapoint first_subject);
             hrir_length := Some (DataPoint.hrir_length datapoint first_subject);
             hrtf_frequencies := Some (DataPoint.hrtf_frequencies datapoint first_subject);
             _features := store feature_spec;
             _targets := store target_spec;
             _groups := store group_spec;
             _selected_angles := selected_angles;
             row_angles := rows;
             column_angles := columns |}
   end)%py.

(** [__len__] *)
Definition __len__ (self : t) : nat := List.length (_features self).

(** [im.resize((32, 32), resample=LANCZOS, box=centre 256 x 256).convert('L')]
    of PIL, lines 134-135 *)
Variable resize_L : value data -> value data.

(** [np.stack]: [None] when it raises [ValueError] *)
Variable np_stack : list (value data) -> option (value data).

(** [characteristics[k]] *)
Definition lookup (k : string) (characteristics : dict (value data))
  : result (value data) :=
  match get k characteristics with
  | Some v => Ok v
  | None => Raise KeyError
  end.

(** lines 131-143: the three records unified, then transformed on demand *)
Definition characteristics_of (self : t) (features target group : dict (value data))
  : dict (value data) :=
  let characteristics := update (update features target) group in
  let characteristics :=
    match get "images" characteristics with
    | Some image =>
        let resized_im := resize_L image in
        let resized_im := match _image_transform self with
                          | Some f => f resized_im
                          | None => resized_im
                          end in
        set "images" resized_im characteristics
    | None => characteristics
    end in
  let characteristics :=
    match get "anthropometry" characteristics, _measurement_transform self with
    | Some a, Some f => set "anthropometry" (f a) characteristics
    | _, _ => characteristics
    end in
  let characteristics :=
    match get "hrirs" characteristics, _hrir_transform self with
    | Some h, Some f => set "hrirs" (f h) characteristics
    | _, _ => characteristics
    end in
  characteristics.

(** lines 145-150 *)
Definition shape_data (characteristics : dict (value data)) (keys : list string)
  : result (value data) :=
  match keys with
  | [] => Ok VEmptyArray
  | [k] => lookup k characteristics
  | _ =>
      (vs <- PyList.traverse (fun k => lookup k characteristics) keys ;;
       Ok (VTuple vs))%py
  end.

(** lines 129-156 *)
Definition get_single_item (self : t) (features target group : dict (value data))
  : result (example data) :=
  let characteristics := characteristics_of self features target group in
  (fv <- shape_data characteristics (keys features) ;;
   tv <- shape_data characteristics (keys target) ;;
   gv <- shape_data characteristics (keys group) ;;
   Ok {| features := fv; target := tv; group := gv |})%py.

(** line 165: the dict comprehension over the keys of [items[0]], any
    [ValueError] of [np.stack] re-raised by line 167 *)
Definition stack_items (items : list (example data)) : result (example data) :=
  match items with
  | [] => Raise IndexError
  | _ :: _ =>
      match np_stack (map features items) with
      | None => Raise (ValueError "Not all data points have the same shape")
      | Some f =>
          match np_stack (map target items) with
          | None => Raise (ValueError "Not all data points have the same shape")
          | Some t =>
              match np_stack (map group items) with
              | None => Raise (ValueError "Not all data points have the same shape")
              | Some g => Ok {| features := f; target := t; group := g |}
              end
          end
      end
  end.

(** [__getitem__]: the stores are Python lists, which take an [int] or a
    [slice] as index and raise [TypeError] for anything else. *)
Definition __getitem__ (self : t) (idx : index) : result (example data) :=
  match idx with
  | IInt i =>
      (f <- PyList.item (_features self) i ;;
       t <- PyList.item (_targets self) i ;;
       g <- PyList.item (_groups self) i ;;
       get_single_item self f t g)%py
  | ISlice start stop step =>
      (fs <- PyList.slice (_features self) start stop step ;;
       ts <- PyList.slice (_targets self) start stop step ;;
       gs <- PyList.slice (_groups self) start stop step ;;
       items <- PyList.traverse
                  (fun ftg : dict (value data) * dict (value data) * dict (value data) =>
                     let '(f, t, g) := ftg in get_single_item self f t g)
                  (PyList.zip3 fs ts gs) ;;
       stack_items items)%py
  | ISeq _ => Raise TypeError
  end.

(** the [available_subject_ids] property: unpacking [zip()] of no pairs
    into two names raises [ValueError] *)
Definition available_subject_ids (self : t) : result (list Z) :=
  let ear_ids :=
    Query.specification_based_ids (_query self) (_specification self) None
      (_exclude_ids self) in
  match ear_ids with
  | [] => Raise (ValueError "not enough values to unpack (expected 2, got 0)")
  | _ :: _ => Ok (PyList.sorted_set (map fst ear_ids))
  end.

End HRTFDataset.
Arguments t data : clear implicits.
End HRTFDataset.

(** *** Notions used to state the properties *)

Module Props.
Section Props.
Context {data : Type}.

(** The modalities, in the order in which lines 109-120 fill a record. *)
Definition modalities : list string :=
  ["images"; "anthropometry"; "hrirs"; "subject"; "side"; "collection"].

(** The modalities that a role specification claims, in that order. *)
Definition claimed (spec : specification) : list string :=
  filter (fun m => contains m spec) modalities.

(** The shaping rule: nothing, the one value unwrapped, or a tuple. *)
Definition shaping (vs : list (value data)) : value data :=
  match vs with
  | [] => VEmptyArray
  | [v] => v
  | _ => VTuple vs
  end.

(** The on-demand transform that [__getitem__] applies to a modality. *)
Definition on_demand (resize_L : value data -> value data) (self : HRTFDataset.t data)
    (m : string) (v : value data) : value data :=
  let apply (f : option (value data -> value data)) (x : value data) :=
    match f with Some f => f x | None => x end in
  if m =? "images" then apply (HRTFDataset._image_transform self) (resize_L v)
  else if m =? "anthropometry" then apply (HRTFDataset._measurement_transform self) v
  else if m =? "hrirs" then apply (HRTFDataset._hrir_transform self) v
  else v.

(** The value shown for modality [m] of an example whose stored records
    are [fr], [tr] and [gr]: the entry of the last of them that has one,
    transformed on demand. *)
Definition shown (resize_L : value data -> value data) (self : HRTFDataset.t data)
    (fr tr gr : dict (value data)) (m : string) : value data :=
  match get m (update (update fr tr) gr) with
  | Some v => on_demand resize_L self m v
  | None => VEmptyArray
  end.

(** The requirement of the specification for mirrored sides: [a] is
    antisymmetric about zero within tolerance. *)
Definition antisymmetric (a : list Q) : bool :=
  Np.allclose a (Np.neg_flip a).

(** The same, with the allowance for a singular entry at -180 degrees in
    front, which maps to itself. *)
Definition antisymmetric_upto_singular (a : list Q) : bool :=
  match a with
  | [] => true
  | first :: rest =>
      if Np.isclose first (-180) then antisymmetric rest else antisymmetric a
  end.

(** The three stores are aligned by index. *)
Definition aligned (self : HRTFDataset.t data) : Prop :=
  List.length (HRTFDataset._targets self) = List.length (HRTFDataset._features self) /\
  List.length (HRTFDataset._groups self) = List.length (HRTFDataset._features self).


End Props.
End Props.

(** *** A small catalog and datapoint to run the code on *)

Module Fixture.

(** [x in l] on integers *)
Definition mem (x : Z) (l : list Z) : bool := existsb (Z.eqb x) l.

(** A catalog of [entries] in which every subject satisfies every
    specification and no id is excluded by default. *)
Definition catalog (entries : list ear_id) : Query.t :=
  {| Query.specification_based_ids :=
       fun _ include exclude =>
         filter (fun e : ear_id =>
                   match include with
                   | Some (Ids ids) => mem (fst e) ids
                   | _ => true
                   end
                   && match exclude with
                      | Some ids => negb (mem (fst e) ids)
                      | None => true
                      end) entries;
     Query.collection_id := "toy" |}.

(** A datapoint over [catalog entries] whose provider resolves every
    request to the grid [grid] and returns the subject id as data. *)
Definition datapoint (spherical : bool) (entries : list ear_id) (grid : angle_map)
  : DataPoint.t Z :=
  {| DataPoint.query := catalog entries;
     DataPoint.is_spherical := spherical;
     DataPoint.hrir_angle_indices :=
       fun _ _ _ =>
         (grid, seq 0 (List.length grid),
          seq 0 (List.length (hd [] (map snd grid))));
     DataPoint.hrir_samplerate := fun _ => 44100;
     DataPoint.hrir_length := fun _ => 256%Z;
     DataPoint.hrtf_frequencies := fun _ => [];
     DataPoint.pinna_image := fun subject _ _ => subject;
     DataPoint.anthropomorphic_data := fun subject _ _ => subject;
     DataPoint.hrir := fun subject _ _ _ _ => subject |}.

(** a grid of [rows] x [columns] *)
Definition grid (rows columns : list Q) : angle_map :=
  map (fun r => (r, columns)) rows.

(** A model of [np.stack] on shapes alone: integers and strings are
    scalars, data has shape [(1,)], and a tuple its length. *)
Definition shape (v : value Z) : list nat :=
  match v with
  | VData _ => [1%nat]
  | VInt _ => []
  | VStr _ => []
  | VEmptyArray => [0%nat]
  | VTuple l => [List.length l]
  end.

Definition same_shapeb (l : list (value Z)) : bool :=
  match l with
  | [] => false
  | x :: r => forallb (fun y => if list_eq_dec Nat.eq_dec (shape y) (shape x) then true else false) r
  end.

Definition stack (l : list (value Z)) : option (value Z) :=
  if same_shapeb l then Some (VTuple l) else None.

(** a resize that leaves the image as it is *)
Definition same (v : value Z) : value Z := v.

End Fixture.

End Full.

(** ** The rest of [src/hrtfdata/torch/full.py] *)

Module FullExt.
Import Full Full.HRTFDataset.

(** [_get_samplerate_and_length_from_spec], lines 13-16: the dict
    comprehension inserts the items of the specifications that are not
    [None], one after the other. *)
Definition _get_samplerate_and_length_from_spec
    (feature_spec target_spec group_spec : option specification) : cfg * cfg :=
  let spec_list :=
    flat_map (fun spec : option specification =>
                match spec with Some d => [d] | None => [] end)
             [feature_spec; target_spec; group_spec] in
  let merged : specification :=
    fold_left (fun acc d => fold_left (fun acc kv => set (fst kv) (snd kv) acc) d acc)
              spec_list [] in
  let hrir_spec := match get "hrirs" merged with Some h => h | None => [] end in
  (cfg_get "samplerate" CNone hrir_spec, cfg_get "length" CNone hrir_spec).

Section TargetShape.
Context {data shape : Type}.

(** [np.hstack(arrays).shape]; [np.hstack] can raise. *)
Variable hstack_shape : list (value data) -> result shape.

(** the [target_shape] property, lines 170-172 *)
Definition target_shape (self : HRTFDataset.t data) : result shape :=
  match _targets self with
  | [] => Raise IndexError
  | first :: _ => hstack_shape (values first)
  end.

End TargetShape.

(** *** The datasets of the collections, lines 182-454 *)

Inductive collection : Type :=
| CIPIC | ARI | Listen | BiLi | ITA | HUTUBS | RIEC | CHEDAR | Widespread
| SADIE2 | ThreeDThreeA | SONICOM.

(** A keyword argument of a datapoint constructor; [APath root (Some p)]
    is [Path(root)/p] and [APath root None] is [Path(root)]. *)
Inductive argument : Type :=
| APath (root : string) (below : option string)
| AStr (s : string)
| ABool (b : bool)
| ANum (q : Q)
| ACfg (c : cfg)
| AType (name : string).

(** The keyword parameters that only some of the classes have, with
    [dtype], which all have.  A class reads the ones of its signature. *)
Record options : Type := {
  hrtf_type : string;
  hrtf_method : string;
  measured_hrtf : bool;
  radius : Q;
  grid : string;
  dtype : string
}.

(** their default values *)
Definition defaults : options :=
  {| hrtf_type := "compensated";
     hrtf_method := "measured";
     measured_hrtf := true;
     radius := 1;
     grid := "UV";
     dtype := "float32" |}.

(** The keyword arguments with which a class builds its datapoint. *)
Definition datapoint_arguments (c : collection) (root : string) (o : options)
    (hrir_samplerate hrir_length : cfg) : dict argument :=
  let sofa below := ("sofa_directory_path", APath root below) in
  let rate := ("hrir_samplerate", ACfg hrir_samplerate) in
  let length := ("hrir_length", ACfg hrir_length) in
  let dt := ("dtype", AType (dtype o)) in
  match c with
  | CIPIC =>
      [("anthropomorphy_matfile_path",
        APath root (Some "CIPIC_hrtf_database/anthropometry/anthro.mat"));
       sofa (Some "sofa"); rate; length; dt]
  | ARI =>
      [("anthropomorphy_matfile_path", APath root (Some "anthro.mat"));
       sofa (Some "sofa"); rate; length; dt]
  | Listen | BiLi =>
      [sofa (Some "sofa"); ("hrtf_type", AStr (hrtf_type o)); rate; length; dt]
  | ITA | RIEC => [sofa (Some "sofa"); rate; length; dt]
  | HUTUBS =>
      [sofa (Some "sofa"); ("measured_hrtf", ABool (measured_hrtf o)); rate; length; dt]
  | CHEDAR => [sofa (Some "sofa"); ("radius", ANum (radius o)); rate; length; dt]
  | Widespread =>
      [sofa (Some "sofa"); ("radius", ANum (radius o)); ("grid", AStr (grid o));
       rate; length; dt]
  | SADIE2 => [sofa (Some "Database-Master_V1-4"); rate; length; dt]
  | ThreeDThreeA =>
      [sofa (Some "HRTFs"); ("hrtf_method", AStr (hrtf_method o));
       ("hrtf_type", AStr (hrtf_type o)); rate; length; dt]
  | SONICOM => [sofa None; ("hrtf_type", AStr (hrtf_type o)); rate; length; dt]
  end.

Section Collections.
Context {data : Type}.

(** the datapoint classes of [..datapoint]: [CipicDataPoint], ... *)
Variable datapoint_of : collection -> dict argument -> DataPoint.t data.

(** [CIPIC.__init__], ..., [SONICOM.__init__].  Only [CIPIC] and [ARI]
    have the parameter [measurement_transform]; the other classes pass
    [None] in its place, and every class passes [None] as image
    transform. *)
Definition collection__init__ (c : collection) (root : string)
    (feature_spec : specification) (target_spec group_spec : option specification)
    (subject_ids : option id_selection) (subject_requirements : option specification)
    (exclude_ids : option (list Z))
    (measurement_transform hrir_transform : option (value data -> value data))
    (o : options) : result (HRTFDataset.t data) :=
  let '(hrir_samplerate, hrir_length) :=
    _get_samplerate_and_length_from_spec (Some feature_spec) target_spec group_spec in
  let datapoint :=
    datapoint_of c (datapoint_arguments c root o hrir_samplerate hrir_length) in
  __init__ datapoint feature_spec target_spec group_spec subject_ids
    subject_requirements exclude_ids None
    (match c with CIPIC | ARI => measurement_transform | _ => None end)
    hrir_transform.

End Collections.

End FullExt.

(** ** The rest of [PlaneMixin] in [src/hartufo/planar.py] *)

Module PlanarExt.
Import Planar.

(** ASCII letters *)
Definition is_upper (c : ascii) : bool :=
  (65 <=? nat_of_ascii c)%nat && (nat_of_ascii c <=? 90)%nat.
Definition is_lower (c : ascii) : bool :=
  (97 <=? nat_of_ascii c)%nat && (nat_of_ascii c <=? 122)%nat.
Definition to_upper (c : ascii) : ascii :=
  if is_lower c then ascii_of_nat (nat_of_ascii c - 32) else c.
Definition to_lower (c : ascii) : ascii :=
  if is_upper c then ascii_of_nat (nat_of_ascii c + 32) else c.

(** [s.title()] on ASCII text: a letter is put in upper case after a
    character that is no letter, and in lower case after a letter. *)
Fixpoint title_after (after_letter : bool) (s : string) : string :=
  match s with
  | EmptyString => EmptyString
  | String c rest =>
      let letter := is_upper c || is_lower c in
      String (if letter then (if after_letter then to_lower c else to_upper c) else c)
             (title_after letter rest)
  end.
Definition title (s : string) : string := title_after false s.

(** [s.replace('-', ' ')] *)
Fixpoint dashes_to_spaces (s : string) : string :=
  match s with
  | EmptyString => EmptyString
  | String c rest =>
      String (if Ascii.eqb c "-" then " "%char else c) (dashes_to_spaces rest)
  end.

Section Facade.
Context {store : Type}.

(** [PlaneMixin.plane_angle_name], lines 67-74 *)
Definition plane_angle_name (self : PlaneMixin.t store) : string :=
  if str_in (PlaneMixin._plane self) ["horizontal"; "interaural"] then "yaw [°]"
  else if str_in (PlaneMixin._plane self) ["median"; "vertical"] then "pitch [°]"
  else "roll [°]".

(** lines 109-114 of [plot_angles]: where zero is drawn and the direction
    of growing angles *)
Definition plot_angles_orientation (self : PlaneMixin.t store) : string * string :=
  if str_in (PlaneMixin._plane self) ["horizontal"; "interaural"; "frontal"]
  then ("N", "counterclockwise")
  else ("W", "clockwise").

(** ['{}'.format(x)] for a number *)
Variable format_number : Q -> string.
(** ['{}'.format(x)] for a subject id *)
Variable format_subject : Z -> string.

(** The part of a title that names the offset, lines 100 and 118. *)
Definition offset_in_title (self : PlaneMixin.t store) : string :=
  if nonzero (PlaneMixin._plane_offset self)
     || str_in (PlaneMixin._plane self) ["vertical"; "interaural"]
  then " With Offset " ++ format_number (PlaneMixin._plane_offset self) ++ "°"
  else "".

(** lines 116-119: the title that [plot_angles] sets when none is given *)
Definition plot_angles_title (self : PlaneMixin.t store) : string :=
  "Angles in the " ++ title (PlaneMixin._plane self) ++ " Plane" ++ offset_in_title self.

(** lines 98-103: the title that [plot_plane] sets when none is given *)
Definition plot_plane_title (self : PlaneMixin.t store) (idx : Z) : result string :=
  (subject <- PyList.item (subject_ids (PlaneMixin.view self)) idx ;;
   side <- PyList.item (sides (PlaneMixin.view self)) idx ;;
   Ok (title (PlaneMixin._plane self) ++ " Plane" ++ offset_in_title self
       ++ " of Subject " ++ format_subject subject ++ "'s "
       ++ title (dashes_to_spaces side) ++ " Ear"))%py.

End Facade.

End PlanarExt.

(** * Properties *)

(** ** The plane facades *)

Module PlanarFacts.
Import Planar.

Section Facts.
Context {store kwargs : Type}.
Variable base_init : dict specification -> kwargs -> result (DatasetView store).
Variable calc_plane_angles :
  PlaneTransform -> list Q -> list Q -> list (list bool) -> list Q.
Variable util : Util.

Lemma role_taken_some (hrir_role : string) (other_specs : dict specification) :
  existsb (fun n => hrir_role =? split_head "_spec" n) (keys other_specs) = true ->
  exists spec_name, PlaneMixin.role_taken hrir_role other_specs = Some spec_name.
Proof.
  unfold PlaneMixin.role_taken. intros He.
  destruct (find _ (keys other_specs)) as [n|] eqn:Hf; [now exists n|].
  apply existsb_exists in He. destruct He as [n [Hin Hn]].
  pose proof (find_none _ _ Hf n Hin) as Hnone. simpl in Hnone. congruence.
Qed.

(** A role that is already taken makes [PlaneMixin.__init__] fail, whatever
    the other arguments are. *)
Lemma PlaneMixin_role_taken
    (plane domain side : string) (distance : cfg) (plane_offset : Q)
    (fundamental orthogonal : angles) (planar_transform : PlaneTransform)
    (hrir_offset hrir_scaling hrir_samplerate hrir_length : option Q)
    (hrir_min_phase : bool) (hrir_role : string)
    (other_specs : dict specification) (kw : kwargs) :
  existsb (fun n => hrir_role =? split_head "_spec" n) (keys other_specs) = true ->
  is_ValueError
    (PlaneMixin.__init__ base_init calc_plane_angles plane domain side distance
       plane_offset fundamental orthogonal planar_transform hrir_offset hrir_scaling
       hrir_samplerate hrir_length hrir_min_phase hrir_role (Some other_specs) kw) = true.
Proof.
  intros He. unfold PlaneMixin.__init__.
  destruct (negb (str_in plane _)); [reflexivity|].
  destruct (role_taken_some _ _ He) as [n ->]. reflexivity.
Qed.

(** C5. An interaural plane dataset cannot be constructed for the planes
    horizontal or frontal with a nonzero offset, nor for the plane vertical;
    a spherical one cannot be constructed for the planes median or frontal
    with a nonzero offset, nor for the plane interaural: the constructor
    raises [ValueError].  Every other combination of the five planes with
    a coordinate system passes the validation. *)
Theorem plane_offset_validation
    (domain side : string) (plane_angles : angles) (plane_offset : Q)
    (positive : bool) (distance : cfg)
    (hrir_offset hrir_scaling hrir_samplerate hrir_length : option Q)
    (hrir_min_phase : bool) (hrir_role : string)
    (other_specs : option (dict specification)) (kw : kwargs) :
  let interaural plane :=
    PlaneMixin.InterauralPlaneMixin__init__ base_init calc_plane_angles util plane
      domain side plane_angles plane_offset positive distance hrir_offset hrir_scaling
      hrir_samplerate hrir_length hrir_min_phase hrir_role other_specs kw in
  let spherical plane :=
    PlaneMixin.SphericalPlaneMixin__init__ base_init calc_plane_angles util plane
      domain side plane_angles plane_offset positive distance hrir_offset hrir_scaling
      hrir_samplerate hrir_length hrir_min_phase hrir_role other_specs kw in
  let interaural_valid plane :=
    is_ok (interaural_plane_angles util plane plane_angles plane_offset) in
  let spherical_valid plane :=
    is_ok (spherical_plane_angles util plane plane_angles plane_offset) in
  (implb (nonzero plane_offset) (is_ValueError (interaural "horizontal")) = true /\
   implb (nonzero plane_offset) (is_ValueError (interaural "frontal")) = true /\
   is_ValueError (interaural "vertical") = true /\
   implb (nonzero plane_offset) (is_ValueError (spherical "median")) = true /\
   implb (nonzero plane_offset) (is_ValueError (spherical "frontal")) = true /\
   is_ValueError (spherical "interaural") = true) /\
  (interaural_valid "horizontal" = negb (nonzero plane_offset) /\
   interaural_valid "median" = true /\
   interaural_valid "frontal" = negb (nonzero plane_offset) /\
   interaural_valid "interaural" = true /\
   interaural_valid "vertical" = false /\
   spherical_valid "horizontal" = true /\
   spherical_valid "median" = negb (nonzero plane_offset) /\
   spherical_valid "frontal" = negb (nonzero plane_offset) /\
   spherical_valid "vertical" = true /\
   spherical_valid "interaural" = false).
Proof.
  cbv zeta. split.
  - unfold PlaneMixin.InterauralPlaneMixin__init__, PlaneMixin.SphericalPlaneMixin__init__,
      interaural_plane_angles, spherical_plane_angles.
    cbn [String.eqb Ascii.eqb Bool.eqb str_in existsb negb orb].
    destruct (nonzero plane_offset); repeat split; reflexivity.
  - unfold interaural_plane_angles, spherical_plane_angles.
    cbn [String.eqb Ascii.eqb Bool.eqb str_in existsb negb orb].
    destruct (nonzero plane_offset); repeat split; reflexivity.
Qed.

(** C6. With no plane angles requested ([None]) the helpers return the
    full range of the plane at offset [o]: for the interaural convention
    (lateral, vertical) is (none, [o-180, o]) for yaw, ((o,), none) for
    pitch and (none, [o-90, o+90]) for roll; for the spherical convention
    (azimuth, elevation) is (none, (o,)) for yaw, ([o-180, o], none) for
    pitch and ([o-90, o+90], none) for roll. *)
Theorem conversion_of_none (o : Q) :
  _lateral_vertical_from_yaw util None o = (None, Some [o - 180; o]) /\
  _lateral_vertical_from_pitch util None o = (Some [o], None) /\
  _lateral_vertical_from_roll util None o = (None, Some [o - 90; o + 90]) /\
  _azimuth_elevation_from_yaw util None o = (None, Some [o]) /\
  _azimuth_elevation_from_pitch util None o = (Some [o - 180; o], None) /\
  _azimuth_elevation_from_roll util None o = (Some [o - 90; o + 90], None).
Proof. repeat split. Qed.

(** C9. Writing [positive_angles] sets the flag of the plane transform and
    recomputes [plane_angles] with [calc_plane_angles] from the fundamental
    angles, orthogonal angles and selection mask that the dataset already
    holds; the DatasetView (subject ids, sides, the three stores, the
    angles, the sample rate, the specification) and the other attributes of
    the facade and of the transform stay as they were. *)
Theorem positive_angles_setter_frame (self : PlaneMixin.t store) (value : bool) :
  let self' := PlaneMixin.set_positive_angles calc_plane_angles self value in
  PlaneMixin.get_positive_angles self' = value /\
  PlaneMixin.plane_angles self' =
    calc_plane_angles (PlaneMixin._planar_transform self')
      (fundamental_angles (PlaneMixin.view self))
      (orthogonal_angles (PlaneMixin.view self))
      (_selection_mask (PlaneMixin.view self)) /\
  PlaneMixin.view self' = PlaneMixin.view self /\
  subject_ids (PlaneMixin.view self') = subject_ids (PlaneMixin.view self) /\
  sides (PlaneMixin.view self') = sides (PlaneMixin.view self) /\
  _features (PlaneMixin.view self') = _features (PlaneMixin.view self) /\
  _targets (PlaneMixin.view self') = _targets (PlaneMixin.view self) /\
  _groups (PlaneMixin.view self') = _groups (PlaneMixin.view self) /\
  fundamental_angles (PlaneMixin.view self') = fundamental_angles (PlaneMixin.view self) /\
  orthogonal_angles (PlaneMixin.view self') = orthogonal_angles (PlaneMixin.view self) /\
  hrir_samplerate (PlaneMixin.view self') = hrir_samplerate (PlaneMixin.view self) /\
  PlaneMixin._plane self' = PlaneMixin._plane self /\
  PlaneMixin._plane_offset self' = PlaneMixin._plane_offset self /\
  PlaneMixin._domain self' = PlaneMixin._domain self /\
  coordinate_system (PlaneMixin._planar_transform self') =
    coordinate_system (PlaneMixin._planar_transform self) /\
  plane (PlaneMixin._planar_transform self') = plane (PlaneMixin._planar_transform self) /\
  plane_offset (PlaneMixin._planar_transform self') =
    plane_offset (PlaneMixin._planar_transform self).
Proof.
  destruct self as [p o d tr v pa]. cbv zeta.
  unfold PlaneMixin.set_positive_angles, PlaneMixin.get_positive_angles, with_positive_angles.
  cbn. repeat split.
Qed.

End Facts.
End PlanarFacts.

(** ** Dictionaries and lists *)

Module PyFacts.

Section DictFacts.
Context {V : Type}.
Implicit Types (d : dict V) (k : string) (v : V).

Lemma contains_get k d :
  contains k d = match get k d with Some _ => true | None => false end.
Proof.
  unfold contains, keys. induction d as [|[k' v'] d IH]; simpl; [reflexivity|].
  destruct (String.eqb k k'); simpl; auto.
Qed.

Lemma get_set k k' v d :
  get k (set k' v d) = if String.eqb k k' then Some v else get k d.
Proof.
  induction d as [|[k0 v0] d IH]; simpl.
  - destruct (String.eqb k k'); reflexivity.
  - destruct (String.eqb k' k0) eqn:E0; simpl.
    + apply String.eqb_eq in E0. subst k0.
      destruct (String.eqb k k'); reflexivity.
    + rewrite IH. destruct (String.eqb k k0) eqn:E1; [|reflexivity].
      apply String.eqb_eq in E1. subst k0.
      destruct (String.eqb k k') eqn:E2; [|reflexivity].
      apply String.eqb_eq in E2. subst k'. rewrite String.eqb_refl in E0. discriminate.
Qed.

Lemma get_absent k d : ~ In k (keys d) -> get k d = None.
Proof.
  induction d as [|[k' v'] d IH]; simpl; [reflexivity|]. intros Hn.
  destruct (String.eqb k k') eqn:E.
  - apply String.eqb_eq in E. subst. exfalso. apply Hn. now left.
  - apply IH. intros Hin. apply Hn. now right.
Qed.

(** [{**a, **b}]: the entry of [b] where it has one, else the entry of [a]. *)
Lemma get_update k (a b : dict V) :
  NoDup (keys b) ->
  get k (update a b) = match get k b with Some v => Some v | None => get k a end.
Proof.
  unfold update. revert a. induction b as [|[k' v'] b IH]; intros a Hnd; simpl; [reflexivity|].
  inversion Hnd as [|? ? Hnotin Hnd']; subst.
  rewrite (IH _ Hnd'). rewrite get_set.
  destruct (String.eqb k k') eqn:E; [|reflexivity].
  apply String.eqb_eq in E. subst k'. now rewrite (get_absent _ _ Hnotin).
Qed.

(** The keys of [{**a, **b}] are those of [a] and those of [b]. *)
Lemma contains_set k k' v d :
  contains k (set k' v d) = String.eqb k k' || contains k d.
Proof.
  rewrite !contains_get, get_set. destruct (String.eqb k k'); reflexivity.
Qed.

Lemma contains_update k (a b : dict V) :
  contains k (update a b) = contains k a || contains k b.
Proof.
  unfold update. revert a. induction b as [|[k' v'] b IH]; intros a; simpl.
  - unfold contains at 3. simpl. now rewrite orb_false_r.
  - rewrite IH, contains_set. unfold contains at 4. simpl.
    fold (contains k b). destruct (String.eqb k k'), (contains k a); reflexivity.
Qed.

Lemma update_nonempty (a b : dict V) : a <> [] \/ b <> [] -> update a b <> [].
Proof.
  intros H Hu.
  assert (Hc : forall k, contains k a || contains k b = false).
  { intros k. rewrite <- contains_update, Hu. reflexivity. }
  destruct a as [|[k v] a].
  - destruct b as [|[k v] b]; [destruct H; congruence|].
    specialize (Hc k). unfold contains in Hc. simpl in Hc.
    rewrite String.eqb_refl in Hc. discriminate.
  - specialize (Hc k). unfold contains in Hc. simpl in Hc.
    rewrite String.eqb_refl in Hc. discriminate.
Qed.

End DictFacts.

Section ListFacts.
Context {A : Type}.

Lemma position_lt i n : PyList.valid_index i n -> (PyList.position i n < n)%nat.
Proof. unfold PyList.valid_index, PyList.position. intros H. destruct (Z.ltb_spec i 0); lia. Qed.

Lemma item_nth (l : list A) (i : Z) :
  PyList.valid_index i (List.length l) ->
  exists x, nth_error l (PyList.position i (List.length l)) = Some x /\ PyList.item l i = Ok x.
Proof.
  intros Hv. pose proof (position_lt _ _ Hv) as Hlt.
  destruct (nth_error l (PyList.position i (List.length l))) as [x|] eqn:E.
  - exists x. split; [reflexivity|]. unfold PyList.item. unfold PyList.position in E.
    unfold PyList.valid_index in Hv.
    replace ((_ <? 0) || (_ <=? _))%Z with false.
    + now rewrite E.
    + symmetry. apply orb_false_iff. split.
      * apply Z.ltb_ge. destruct (Z.ltb_spec i 0); lia.
      * apply Z.leb_gt. destruct (Z.ltb_spec i 0); lia.
  - apply nth_error_None in E. lia.
Qed.

Lemma item_map {B : Type} (h : A -> B) (l : list A) (i : Z) :
  PyList.item (map h l) i =
  match PyList.item l i with Ok x => Ok (h x) | Raise e => Raise e end.
Proof.
  unfold PyList.item. rewrite length_map.
  destruct (_ || _)%bool; [reflexivity|].
  rewrite nth_error_map. now destruct (nth_error l _).
Qed.

Lemma traverse_map_ok {B : Type} (f : A -> result B) (g : A -> B) (l : list A) :
  (forall x, In x l -> f x = Ok (g x)) -> PyList.traverse f l = Ok (map g l).
Proof.
  induction l as [|x l IH]; intros H; simpl; [reflexivity|].
  rewrite (H x (or_introl eq_refl)). simpl. rewrite IH; [reflexivity|].
  intros y Hy. apply H. now right.
Qed.

End ListFacts.

End PyFacts.

(** ** The dataset assembler *)

Module FullFacts.
Import Full Full.Props Full.HRTFDataset PyFacts.

(** The arguments of one call of [HRTFDataset.__init__]; [ids] is its
    [subject_ids]. *)
Section Construction.
Context {data : Type}.
Variable datapoint : DataPoint.t data.
Variables (feature_spec : specification) (target_spec group_spec : option specification).
Variables (ids : option id_selection) (subject_requirements : option specification).
Variable exclude_ids : option (list Z).
Variables image_transform measurement_transform hrir_transform : option (value data -> value data).

(** the call, the combined specification and the filtered query *)
Let construct : result (HRTFDataset.t data) :=
  __init__ datapoint feature_spec target_spec group_spec ids subject_requirements
    exclude_ids image_transform measurement_transform hrir_transform.

Let combined : result specification :=
  combined_specification feature_spec (or_empty target_spec) (or_empty group_spec)
    subject_requirements.

Let ear_ids (spec : specification) : list ear_id :=
  Query.specification_based_ids (DataPoint.query datapoint) spec ids
    (default_exclude_ids ids exclude_ids).

(** What a successful construction leaves on the object. *)
Lemma init_inversion (self : HRTFDataset.t data) :
  construct = Ok self ->
  exists spec row_indices column_indices,
    combined = Ok spec /\
    _specification self = spec /\
    _query self = DataPoint.query datapoint /\
    _exclude_ids self = default_exclude_ids ids exclude_ids /\
    _image_transform self = image_transform /\
    _measurement_transform self = measurement_transform /\
    _hrir_transform self = hrir_transform /\
    subject_ids self = map fst (ear_ids spec) /\
    _features self =
      map (fun e : ear_id => subject_data datapoint feature_spec (fst e) (snd e)
                               row_indices column_indices) (ear_ids spec) /\
    _targets self =
      map (fun e : ear_id => subject_data datapoint (or_empty target_spec) (fst e) (snd e)
                               row_indices column_indices) (ear_ids spec) /\
    _groups self =
      map (fun e : ear_id => subject_data datapoint (or_empty group_spec) (fst e) (snd e)
                               row_indices column_indices) (ear_ids spec) /\
    (ear_ids spec = [] ->
     Query.specification_based_ids (DataPoint.query datapoint) spec None None <> [] /\
     sides self = None /\ row_angles self = [] /\ column_angles self = []) /\
    (ear_ids spec <> [] -> sides self = Some (map snd (ear_ids spec))).
Proof.
  unfold construct, __init__. fold combined.
  destruct combined as [spec|e]; simpl; [|discriminate].
  fold (ear_ids spec).
  destruct (ear_ids spec) as [|[first_subject first_side] rest] eqn:Hears.
  - destruct (Query.specification_based_ids _ spec None None) as [|u us] eqn:Hall;
      [discriminate|].
    intros [= <-]. exists spec, [], []. simpl.
    repeat split; try (rewrite ?Hears; reflexivity); try congruence.
  - destruct (select_angles datapoint spec first_subject)
      as [[[[[sel rows] cols] ri] ci]|e]; simpl; [|discriminate].
    intros [= <-]. exists spec, ri, ci. simpl.
    repeat split; try (rewrite ?Hears; reflexivity); try congruence.
Qed.

(** Three empty role specifications: line 52 raises before the catalog
    is asked. *)
Lemma no_specification_rejected :
  update (update feature_spec (or_empty target_spec)) (or_empty group_spec) = [] ->
  construct = Raise (ValueError "At least one specification should not be empty").
Proof.
  intros Hm. unfold construct, __init__, combined_specification. now rewrite Hm.
Qed.

(** C1. Let [spec] be the combined specification with which the
    constructor asks the catalog, and let the query filtered by the
    include- and exclude-list return no (subject, side) id.  If the
    unfiltered query of [spec] is empty as well, construction fails with
    [ValueError]; if it is not, construction succeeds with a DatasetView of
    length 0 whose subject ids, three stores and row and column angles are
    empty. *)
Theorem empty_query_construction (spec : specification) :
  combined = Ok spec ->
  ear_ids spec = [] ->
  let unfiltered :=
    Query.specification_based_ids (DataPoint.query datapoint) spec None None in
  (unfiltered = [] ->
   construct =
     Raise (ValueError "Empty dataset. Check if its configuration and paths are correct.")) /\
  (unfiltered <> [] ->
   exists self,
     construct = Ok self /\ __len__ self = 0%nat /\
     subject_ids self = [] /\
     _features self = [] /\ _targets self = [] /\ _groups self = [] /\
     row_angles self = [] /\ column_angles self = []).
Proof.
  intros Hc He. cbv zeta. unfold construct, __init__. fold combined.
  rewrite Hc. cbn [bind]. unfold ear_ids in He. rewrite He. split.
  - intros Hu. now rewrite Hu.
  - intros Hu. destruct (Query.specification_based_ids _ _ None None); [congruence|].
    eexists. split; [reflexivity|]. repeat split.
Qed.

(** C4 (amended). On the constructed object: an exclude-list that was
    given is stored as given; with none given, a collection of subject ids
    makes the stored exclude-list the empty collection, while no subject
    ids, or subject ids given as a string, leave it unset.  The stored
    exclude-list is the one the catalog was asked with. *)
Theorem stored_exclude_ids (self : HRTFDataset.t data) :
  construct = Ok self ->
  (forall e, exclude_ids = Some e -> _exclude_ids self = Some e) /\
  (forall l, exclude_ids = None -> ids = Some (Ids l) -> _exclude_ids self = Some []) /\
  (exclude_ids = None -> ids = None -> _exclude_ids self = None) /\
  (forall s, exclude_ids = None -> ids = Some (IdsStr s) -> _exclude_ids self = None) /\
  subject_ids self =
    map fst (Query.specification_based_ids (_query self) (_specification self) ids
               (_exclude_ids self)).
Proof.
  intros Hc. destruct (init_inversion _ Hc)
    as (spec & ri & ci & _ & Hs & Hq & He & _ & _ & _ & Hids & _).
  rewrite He, Hs, Hq. repeat split.
  - intros e ->. now destruct ids as [[|]|].
  - now intros l -> ->.
  - now intros -> ->.
  - now intros s -> ->.
  - exact Hids.
Qed.

(** C10 (amended). Whenever the catalog, asked with the stored
    specification and the stored exclude-list, returns no pair, reading
    [available_subject_ids] raises [ValueError] (nothing to unpack).  This is
    the case of every DatasetView of length 0 that was constructed without
    an include-list. *)
Theorem available_subject_ids_of_nothing (self : HRTFDataset.t data) :
  (Query.specification_based_ids (_query self) (_specification self) None
     (_exclude_ids self) = [] ->
   available_subject_ids self =
     Raise (ValueError "not enough values to unpack (expected 2, got 0)")) /\
  (construct = Ok self -> ids = None -> __len__ self = 0%nat ->
   available_subject_ids self =
     Raise (ValueError "not enough values to unpack (expected 2, got 0)")).
Proof.
  assert (Hgen : Query.specification_based_ids (_query self) (_specification self) None
                   (_exclude_ids self) = [] ->
                 available_subject_ids self =
                   Raise (ValueError "not enough values to unpack (expected 2, got 0)")).
  { intros He. unfold available_subject_ids. now rewrite He. }
  split; [exact Hgen|].
  intros Hc Hids Hlen. apply Hgen.
  destruct (init_inversion _ Hc)
    as (spec & ri & ci & _ & Hs & Hq & He & _ & _ & _ & _ & Hf & _).
  unfold __len__ in Hlen. rewrite Hf, length_map in Hlen.
  apply length_zero_iff_nil in Hlen.
  rewrite Hs, Hq, He. unfold ear_ids in Hlen. rewrite Hids in *. exact Hlen.
Qed.

(** The message of lines 87 and 91. *)
Lemma check_both_sides_spec (spherical : bool) (side : string) (rows cols : list Q) :
  String.prefix "both-" side = true -> rows <> [] ->
  check_both_sides spherical side rows cols =
  if (if spherical then antisymmetric_upto_singular rows else antisymmetric cols)
  then Ok tt
  else Raise (ValueError ("Only datasets with symmetric "
                          ++ (if spherical then "azimuths" else "lateral angles")
                          ++ " can use " ++ side ++ " sides.")).
Proof.
  intros Hp Hr. unfold check_both_sides. rewrite Hp.
  destruct spherical.
  - destruct rows as [|first rest]; [congruence|].
    unfold antisymmetric_upto_singular, antisymmetric.
    destruct (Np.isclose first (-180)); simpl skipn;
      destruct (Np.allclose _ _); reflexivity.
  - unfold antisymmetric. destruct (Np.allclose _ _); reflexivity.
Qed.

(** C2 (amended). Let the combined specification have an ['hrirs'] entry
    whose side begins with ['both-'].  A construction that succeeds has row
    angles that are antisymmetric about zero within tolerance once an entry
    close to -180 in front is set aside (spherical datapoint), or column
    angles that are antisymmetric about zero within tolerance, with no such
    allowance (any other datapoint).  When the catalog returns ids and the
    provider a grid, construction succeeds if the grid meets this
    requirement and fails with [ValueError] if it does not. *)
Theorem both_sides_symmetry (spec : specification) (hrirs : dict cfg) (side : string) :
  combined = Ok spec ->
  get "hrirs" spec = Some hrirs ->
  cfg_get "side" (CStr "") hrirs = CStr side ->
  String.prefix "both-" side = true ->
  let symmetric (rows cols : list Q) :=
    if DataPoint.is_spherical datapoint
    then antisymmetric_upto_singular rows
    else antisymmetric cols in
  (forall self, construct = Ok self ->
     symmetric (row_angles self) (column_angles self) = true) /\
  (forall first_subject first_side rest row first_columns grid row_indices column_indices,
     ear_ids spec = (first_subject, first_side) :: rest ->
     DataPoint.hrir_angle_indices datapoint first_subject
       (cfg_get "row_angles" CNone hrirs) (cfg_get "column_angles" CNone hrirs) =
       ((row, first_columns) :: grid, row_indices, column_indices) ->
     let rows := row :: map fst grid in
     (symmetric rows first_columns = true ->
      exists self, construct = Ok self /\
                   row_angles self = rows /\ column_angles self = first_columns) /\
     (symmetric rows first_columns = false ->
      construct =
        Raise (ValueError ("Only datasets with symmetric "
                           ++ (if DataPoint.is_spherical datapoint
                               then "azimuths" else "lateral angles")
                           ++ " can use " ++ side ++ " sides.")))).
Proof.
  intros Hc Hh Hside Hp. cbv zeta. split.
  - intros self. unfold construct, __init__. fold combined. rewrite Hc. simpl.
    fold (ear_ids spec).
    destruct (ear_ids spec) as [|[first_subject first_side] rest].
    + destruct (Query.specification_based_ids _ spec None None); [discriminate|].
      intros [= <-]. simpl. now destruct (DataPoint.is_spherical datapoint).
    + unfold select_angles. rewrite Hh, Hside.
      destruct (DataPoint.hrir_angle_indices _ _ _ _) as [[sel ri] ci].
      destruct sel as [|[row first_columns] grid]; simpl; [discriminate|].
      rewrite (check_both_sides_spec _ _ _ _ Hp) by discriminate.
      destruct (if DataPoint.is_spherical datapoint then _ else _) eqn:Hsym; simpl;
        [|discriminate].
      intros [= <-]. simpl. exact Hsym.
  - intros first_subject first_side rest row first_columns grid ri ci He Hg.
    unfold construct, __init__. fold combined. rewrite Hc. cbn [bind].
    fold (ear_ids spec). rewrite He.
    unfold select_angles. rewrite Hh, Hside, Hg. cbn [map fst snd].
    rewrite (check_both_sides_spec _ _ _ _ Hp) by discriminate.
    split; intros Hsym; rewrite Hsym; simpl.
    + eexists. split; [reflexivity|]. split; reflexivity.
    + reflexivity.
Qed.

End Construction.
Section SliceFacts.
Context {A : Type}.

Lemma adjust_bounds (bound : option Z) (n step u_pos u_neg : Z) :
  (0 <= n)%Z ->
  ((0 < step -> 0 <= u_pos <= n) /\ (step < 0 -> -1 <= u_neg <= n - 1))%Z ->
  let r := PyList.adjust bound n step u_pos u_neg in
  ((0 < step -> 0 <= r <= n) /\ (step < 0 -> -1 <= r <= n - 1))%Z.
Proof.
  intros Hn [Hp Hneg]. unfold PyList.adjust. cbv zeta.
  destruct bound as [b|];
    destruct (Z.ltb_spec step 0); try destruct (Z.ltb_spec b 0); lia.
Qed.

(** A slice selects positions of the list only. *)
Lemma slice_indices_in_range (start stop step : option Z) (n : Z) (js : list Z) :
  (0 <= n)%Z ->
  PyList.slice_indices start stop step n = Ok js ->
  Forall (fun j => 0 <= j < n)%Z js.
Proof.
  intros Hn. unfold PyList.slice_indices.
  set (s := match step with None => 1%Z | Some s => s end).
  destruct (Z.eqb_spec s 0) as [|Hs]; [discriminate|].
  set (first := PyList.adjust start n s 0 (n - 1)).
  set (last := PyList.adjust stop n s n (-1)).
  assert (Hfirst : ((0 < s -> 0 <= first <= n) /\ (s < 0 -> -1 <= first <= n - 1))%Z)
    by (apply adjust_bounds; lia).
  assert (Hlast : ((0 < s -> 0 <= last <= n) /\ (s < 0 -> -1 <= last <= n - 1))%Z)
    by (apply adjust_bounds; lia).
  intros [= <-]. apply Forall_forall. intros j Hin.
  apply in_map_iff in Hin. destruct Hin as (k & <- & Hk). apply in_seq in Hk.
  destruct (Z.ltb_spec 0 s) as [Hpos|Hneg].
  - destruct (Z.ltb_spec first last) as [Hlt|]; [|simpl in Hk; lia].
    pose proof (Z.mul_div_le (last - first - 1) s Hpos) as Hq.
    assert (Hq0 : (0 <= (last - first - 1) / s)%Z) by (apply Z.div_pos; lia).
    nia.
  - assert (Hneg' : (0 < - s)%Z) by lia.
    destruct (Z.ltb_spec last first) as [Hlt|]; [|simpl in Hk; lia].
    pose proof (Z.mul_div_le (first - last - 1) (- s) Hneg') as Hq.
    assert (Hq0 : (0 <= (first - last - 1) / - s)%Z) by (apply Z.div_pos; lia).
    nia.
Qed.

Lemma item_in_range (l : list A) (j : Z) :
  (0 <= j < Z.of_nat (List.length l))%Z ->
  exists x, nth_error l (Z.to_nat j) = Some x /\ PyList.item l j = Ok x.
Proof.
  intros Hj. destruct (item_nth l j) as (x & Hx & Hitem).
  - unfold PyList.valid_index. lia.
  - exists x. split; [|exact Hitem]. unfold PyList.position in Hx.
    destruct (Z.ltb_spec j 0); [lia|exact Hx].
Qed.

End SliceFacts.

Section Retrieval.
Context {data : Type}.
Variable resize_L : value data -> value data.
Variable np_stack : list (value data) -> option (value data).

Lemma get_adjust (k m : string) (h : value data -> value data) (d : dict (value data)) :
  get m (match get k d with Some v => set k (h v) d | None => d end) =
  if String.eqb m k then option_map h (get k d) else get m d.
Proof.
  destruct (get k d) as [v|] eqn:G.
  - rewrite get_set. now destruct (String.eqb m k).
  - destruct (String.eqb m k) eqn:E; [|reflexivity].
    apply String.eqb_eq in E. subst. now rewrite G.
Qed.

(** Lines 131-143 entry by entry: [characteristics] holds the unified
    records, each modality transformed on demand. *)
Lemma get_characteristics (self : HRTFDataset.t data) (fr tr gr : dict (value data))
    (m : string) :
  get m (characteristics_of resize_L self fr tr gr) =
  option_map (on_demand resize_L self m) (get m (update (update fr tr) gr)).
Proof.
  unfold characteristics_of, on_demand.
  set (c0 := update (update fr tr) gr).
  set (c1 := match get "images" c0 with Some _ => _ | None => _ end).
  set (c2 := match get "anthropometry" c1, _ with Some _, Some _ => _ | _, _ => _ end).
  assert (H1 : forall k, get k c1 =
                 if String.eqb k "images"
                 then option_map (fun v => match _image_transform self with
                                           | Some f => f (resize_L v)
                                           | None => resize_L v
                                           end) (get "images" c0)
                 else get k c0).
  { intros k. unfold c1. apply (get_adjust "images" k). }
  assert (H2 : forall k, get k c2 =
                 if String.eqb k "anthropometry"
                 then option_map (fun v => match _measurement_transform self with
                                           | Some f => f v
                                           | None => v
                                           end) (get "anthropometry" c1)
                 else get k c1).
  { intros k. unfold c2. destruct (_measurement_transform self) as [f|].
    - etransitivity; [|exact (get_adjust "anthropometry" k f c1)].
      now destruct (get "anthropometry" c1).
    - destruct (get "anthropometry" c1) eqn:G; simpl;
        destruct (String.eqb k "anthropometry") eqn:E; try reflexivity;
        apply String.eqb_eq in E; now subst. }
  assert (H3 : forall k c,
             get k (match get "hrirs" c, _hrir_transform self with
                    | Some h, Some f => set "hrirs" (f h) c
                    | _, _ => c
                    end) =
             if String.eqb k "hrirs"
             then option_map (fun v => match _hrir_transform self with
                                       | Some f => f v
                                       | None => v
                                       end) (get "hrirs" c)
             else get k c).
  { intros k c. destruct (_hrir_transform self) as [f|].
    - etransitivity; [|exact (get_adjust "hrirs" k f c)].
      now destruct (get "hrirs" c).
    - destruct (get "hrirs" c) eqn:G; simpl;
        destruct (String.eqb k "hrirs") eqn:E; try reflexivity;
        apply String.eqb_eq in E; now subst. }
  rewrite H3, !H2, !H1. cbn [String.eqb Ascii.eqb Bool.eqb].
  destruct (String.eqb m "images") eqn:E1.
  { apply String.eqb_eq in E1. subst m. cbn [String.eqb Ascii.eqb Bool.eqb].
    destruct (get "images" c0); simpl; now destruct (_image_transform self). }
  destruct (String.eqb m "anthropometry") eqn:E2.
  { apply String.eqb_eq in E2. subst m. cbn [String.eqb Ascii.eqb Bool.eqb].
    destruct (get "anthropometry" c0); simpl; now destruct (_measurement_transform self). }
  destruct (String.eqb m "hrirs") eqn:E3.
  { apply String.eqb_eq in E3. subst m.
    destruct (get "hrirs" c0); simpl; now destruct (_hrir_transform self). }
  now destruct (get m c0).
Qed.

(** A record holds the modalities that its role claims, in the order of
    lines 109-120. *)
Lemma keys_subject_data (datapoint : DataPoint.t data) (spec : specification)
    (subject : Z) (side : string) (ri ci : list nat) :
  keys (subject_data datapoint spec subject side ri ci) = claimed spec.
Proof.
  unfold subject_data, claimed, modalities. cbn [filter].
  rewrite !contains_get.
  destruct (get "images" spec), (get "anthropometry" spec), (get "hrirs" spec),
    (get "subject" spec), (get "side" spec), (get "collection" spec); reflexivity.
Qed.

Lemma NoDup_claimed (spec : specification) : NoDup (claimed spec).
Proof.
  unfold claimed. apply NoDup_filter. unfold modalities.
  repeat constructor; simpl; intuition discriminate.
Qed.

(** The value shown for a modality comes from the record of the last role
    that claims it: group before target before features. *)
Lemma shown_of_records (self : HRTFDataset.t data) (datapoint : DataPoint.t data)
    (feature_spec target_spec group_spec : specification)
    (subject : Z) (side : string) (ri ci : list nat) (m : string) :
  let record spec := subject_data datapoint spec subject side ri ci in
  shown resize_L self (record feature_spec) (record target_spec) (record group_spec) m =
  match get m (record group_spec), get m (record target_spec), get m (record feature_spec) with
  | Some v, _, _ => on_demand resize_L self m v
  | None, Some v, _ => on_demand resize_L self m v
  | None, None, Some v => on_demand resize_L self m v
  | None, None, None => VEmptyArray
  end.
Proof.
  cbv zeta. unfold shown.
  rewrite !get_update by (rewrite keys_subject_data; apply NoDup_claimed).
  destruct (get m (subject_data datapoint group_spec subject side ri ci)); [reflexivity|].
  destruct (get m (subject_data datapoint target_spec subject side ri ci)); reflexivity.
Qed.

Lemma contains_keys {V : Type} (k : string) (d : dict V) :
  In k (keys d) -> contains k d = true.
Proof.
  intros Hin. unfold contains. apply existsb_exists. exists k.
  split; [exact Hin|apply String.eqb_refl].
Qed.

Lemma lookup_shown (self : HRTFDataset.t data) (fr tr gr : dict (value data)) (k : string) :
  contains k (update (update fr tr) gr) = true ->
  lookup k (characteristics_of resize_L self fr tr gr) = Ok (shown resize_L self fr tr gr k).
Proof.
  intros Hc. unfold lookup, shown. rewrite get_characteristics.
  rewrite contains_get in Hc.
  destruct (get k (update (update fr tr) gr)); [reflexivity|discriminate].
Qed.

(** Lines 145-150 on keys that the unified record has. *)
Lemma shape_data_shown (self : HRTFDataset.t data) (fr tr gr : dict (value data))
    (ks : list string) :
  (forall k, In k ks -> contains k (update (update fr tr) gr) = true) ->
  shape_data (characteristics_of resize_L self fr tr gr) ks =
  Ok (shaping (map (shown resize_L self fr tr gr) ks)).
Proof.
  intros Hks. unfold shape_data.
  destruct ks as [|k1 [|k2 ks]].
  - reflexivity.
  - apply lookup_shown, Hks. now left.
  - rewrite (traverse_map_ok _ (shown resize_L self fr tr gr)).
    + reflexivity.
    + intros k Hk. now apply lookup_shown, Hks.
Qed.

Lemma get_single_item_shown (self : HRTFDataset.t data) (fr tr gr : dict (value data)) :
  get_single_item resize_L self fr tr gr =
  Ok {| features := shaping (map (shown resize_L self fr tr gr) (keys fr));
        target := shaping (map (shown resize_L self fr tr gr) (keys tr));
        group := shaping (map (shown resize_L self fr tr gr) (keys gr)) |}.
Proof.
  unfold get_single_item.
  rewrite !shape_data_shown; [reflexivity| | |];
    intros k Hk; rewrite !contains_update, (contains_keys _ _ Hk);
    now rewrite ?orb_true_r.
Qed.

(** C3 (amended). On a constructed dataset and a valid integer index, each
    of the three role values of the example is: the empty array when the
    role claims none of the six modalities; the value of the modality when
    it claims one; and, when it claims more, the tuple of their values in
    the fixed order images, anthropometry, hrirs, subject, side, collection.
    The value of a modality is its entry in the unified records of the
    example (a later role replacing an earlier one), transformed on
    demand. *)
Theorem getitem_shaping
    (datapoint : DataPoint.t data)
    (feature_spec : specification) (target_spec group_spec : option specification)
    (ids : option id_selection) (subject_requirements : option specification)
    (exclude_ids : option (list Z))
    (image_transform measurement_transform hrir_transform : option (value data -> value data))
    (self : HRTFDataset.t data) (i : Z) :
  __init__ datapoint feature_spec target_spec group_spec ids subject_requirements
    exclude_ids image_transform measurement_transform hrir_transform = Ok self ->
  PyList.valid_index i (__len__ self) ->
  exists subject side row_indices column_indices,
    PyList.item (subject_ids self) i = Ok subject /\
    option_map (fun s => PyList.item s i) (sides self) = Some (Ok side) /\
    let record spec :=
      subject_data datapoint spec subject side row_indices column_indices in
    let value_of :=
      shown resize_L self (record feature_spec) (record (or_empty target_spec))
        (record (or_empty group_spec)) in
    __getitem__ resize_L np_stack self (IInt i) =
    Ok {| features := shaping (map value_of (claimed feature_spec));
          target := shaping (map value_of (claimed (or_empty target_spec)));
          group := shaping (map value_of (claimed (or_empty group_spec))) |}.
Proof.
  intros Hc Hv.
  destruct (init_inversion _ _ _ _ _ _ _ _ _ _ _ Hc)
    as (spec & ri & ci & _ & _ & _ & _ & _ & _ & _ & Hids & Hf & Ht & Hg & _ & Hsides).
  set (ears := Query.specification_based_ids (DataPoint.query datapoint) spec ids
                 (default_exclude_ids ids exclude_ids)) in *.
  unfold __len__ in Hv. rewrite Hf, length_map in Hv.
  destruct (item_nth ears i Hv) as ([subject side] & _ & Hitem).
  unfold ear_id in *.
  exists subject, side, ri, ci. split; [|split].
  - now rewrite Hids, item_map, Hitem.
  - rewrite Hsides.
    + simpl. now rewrite item_map, Hitem.
    + intros Hnil. rewrite Hnil in Hv. unfold PyList.valid_index in Hv. simpl in Hv. lia.
  - cbv zeta. unfold __getitem__.
    rewrite Hf, Ht, Hg, !item_map, Hitem. cbn [bind fst snd].
    rewrite get_single_item_shown, !keys_subject_data. reflexivity.
Qed.

(** The examples picked by a slice are the examples of its indices. *)
Lemma traverse_picked (self : HRTFDataset.t data) (js : list Z) :
  aligned self ->
  Forall (fun j => 0 <= j < Z.of_nat (__len__ self))%Z js ->
  let pick (l : list (dict (value data))) :=
    flat_map (fun i => match nth_error l (Z.to_nat i) with
                       | Some x => [x]
                       | None => []
                       end) js in
  PyList.traverse
    (fun ftg : dict (value data) * dict (value data) * dict (value data) =>
       let '(f, t, g) := ftg in get_single_item resize_L self f t g)
    (PyList.zip3 (pick (_features self)) (pick (_targets self)) (pick (_groups self))) =
  PyList.traverse (fun j => __getitem__ resize_L np_stack self (IInt j)) js.
Proof.
  intros [Ht Hg] Hjs. cbv zeta. unfold __len__ in Hjs.
  induction Hjs as [|j js Hj _ IH]; [reflexivity|].
  destruct (item_in_range (_features self) j Hj) as (f & Hnf & Hif).
  destruct (item_in_range (_targets self) j) as (t & Hnt & Hit); [now rewrite Ht|].
  destruct (item_in_range (_groups self) j) as (g & Hng & Hig); [now rewrite Hg|].
  cbn [flat_map PyList.traverse]. rewrite Hnf, Hnt, Hng.
  unfold PyList.zip3 in *. cbn [app combine PyList.traverse].
  unfold __getitem__ at 1. rewrite Hif, Hit, Hig. cbn [bind].
  destruct (get_single_item resize_L self f t g); cbn [bind]; [|reflexivity].
  now rewrite IH.
Qed.



End Retrieval.

(** A constructed dataset has aligned stores. *)
Lemma init_aligned {data : Type} (datapoint : DataPoint.t data)
    (feature_spec : specification) (target_spec group_spec : option specification)
    (ids : option id_selection) (subject_requirements : option specification)
    (exclude_ids : option (list Z))
    (image_transform measurement_transform hrir_transform : option (value data -> value data))
    (self : HRTFDataset.t data) :
  __init__ datapoint feature_spec target_spec group_spec ids subject_requirements
    exclude_ids image_transform measurement_transform hrir_transform = Ok self ->
  aligned self.
Proof.
  intros Hc.
  destruct (init_inversion _ _ _ _ _ _ _ _ _ _ _ Hc)
    as (spec & ri & ci & _ & _ & _ & _ & _ & _ & _ & _ & Hf & Ht & Hg & _).
  unfold aligned. rewrite Hf, Ht, Hg, !length_map. split; reflexivity.
Qed.

(** The merge of lines 50-54 fails for three empty specifications only,
    and the keys of its result are the keys of its arguments. *)
Lemma combined_specification_keys
    (feature_spec target_spec group_spec : specification)
    (subject_requirements : option specification) :
  feature_spec <> [] \/ target_spec <> [] \/ group_spec <> [] ->
  exists spec,
    combined_specification feature_spec target_spec group_spec subject_requirements
      = Ok spec /\
    forall k, contains k spec =
              contains k feature_spec || contains k target_spec || contains k group_spec
              || contains k (or_empty subject_requirements).
Proof.
  intros Hne. unfold combined_specification.
  assert (Hm : update (update feature_spec target_spec) group_spec <> []).
  { apply update_nonempty. destruct Hne as [H|[H|H]]; [left|left|right; exact H];
      apply update_nonempty; tauto. }
  destruct (update (update feature_spec target_spec) group_spec) as [|kv m] eqn:E;
    [congruence|].
  eexists. split; [reflexivity|]. intros k. rewrite <- E.
  destruct subject_requirements as [r|]; simpl.
  - now rewrite !contains_update.
  - rewrite !contains_update. unfold contains at 4. simpl. now rewrite orb_false_r.
Qed.

Lemma interaural_validation_error (util : Planar.Util) (plane : string)
    (plane_angles : Planar.angles) (plane_offset : Q) :
  is_ok (Planar.interaural_plane_angles util plane plane_angles plane_offset) = false ->
  is_ValueError (Planar.interaural_plane_angles util plane plane_angles plane_offset) = true.
Proof.
  unfold Planar.interaural_plane_angles, str_in. cbn [existsb].
  destruct (plane =? "horizontal"), (plane =? "median"), (plane =? "frontal"),
    (plane =? "interaural"), (Planar.nonzero plane_offset); simpl; congruence.
Qed.

Lemma spherical_validation_error (util : Planar.Util) (plane : string)
    (plane_angles : Planar.angles) (plane_offset : Q) :
  is_ok (Planar.spherical_plane_angles util plane plane_angles plane_offset) = false ->
  is_ValueError (Planar.spherical_plane_angles util plane plane_angles plane_offset) = true.
Proof.
  unfold Planar.spherical_plane_angles.
  destruct (plane =? "horizontal"), (plane =? "median"), (plane =? "frontal"),
    (plane =? "vertical"), (Planar.nonzero plane_offset); simpl; congruence.
Qed.

(** C8 (amended). A plane dataset given an [other_specs] entry whose name,
    cut at ['_spec'], is the role of the HRIRs fails with [ValueError],
    whichever of the three constructors is used.  [HRTFDataset] itself does
    not reject a modality that several of the feature, target and group
    specifications claim: unless all three are empty the merge succeeds, and
    the combined specification has the keys of the three (and of the
    subject requirements). *)
Theorem role_claims {store kwargs : Type}
    (base_init : dict Planar.specification -> kwargs -> result (Planar.DatasetView store))
    (calc_plane_angles :
       Planar.PlaneTransform -> list Q -> list Q -> list (list bool) -> list Q)
    (util : Planar.Util)
    (plane domain side : string) (distance : Planar.cfg) (plane_offset : Q)
    (plane_angles fundamental orthogonal : Planar.angles)
    (planar_transform : Planar.PlaneTransform) (positive : bool)
    (hrir_offset hrir_scaling hrir_samplerate hrir_length : option Q)
    (hrir_min_phase : bool) (hrir_role : string)
    (other_specs : dict Planar.specification) (kw : kwargs)
    (feature_spec target_spec group_spec : specification)
    (subject_requirements : option specification) :
  (existsb (fun n => hrir_role =? Planar.split_head "_spec" n) (keys other_specs) = true ->
   is_ValueError
     (Planar.PlaneMixin.__init__ base_init calc_plane_angles plane domain side distance
        plane_offset fundamental orthogonal planar_transform hrir_offset hrir_scaling
        hrir_samplerate hrir_length hrir_min_phase hrir_role (Some other_specs) kw) = true /\
   is_ValueError
     (Planar.PlaneMixin.InterauralPlaneMixin__init__ base_init calc_plane_angles util
        plane domain side plane_angles plane_offset positive distance hrir_offset
        hrir_scaling hrir_samplerate hrir_length hrir_min_phase hrir_role
        (Some other_specs) kw) = true /\
   is_ValueError
     (Planar.PlaneMixin.SphericalPlaneMixin__init__ base_init calc_plane_angles util
        plane domain side plane_angles plane_offset positive distance hrir_offset
        hrir_scaling hrir_samplerate hrir_length hrir_min_phase hrir_role
        (Some other_specs) kw) = true) /\
  (feature_spec <> [] \/ target_spec <> [] \/ group_spec <> [] ->
   exists spec,
     combined_specification feature_spec target_spec group_spec subject_requirements
       = Ok spec /\
     forall k, contains k spec =
               contains k feature_spec || contains k target_spec || contains k group_spec
               || contains k (or_empty subject_requirements)).
Proof.
  split; [|apply combined_specification_keys].
  intros Hrole. split; [|split].
  - now apply PlanarFacts.PlaneMixin_role_taken.
  - unfold Planar.PlaneMixin.InterauralPlaneMixin__init__.
    pose proof (interaural_validation_error util plane plane_angles plane_offset) as Hv.
    destruct (Planar.interaural_plane_angles util plane plane_angles plane_offset)
      as [[lateral vertical]|e]; cbn [bind].
    + now apply PlanarFacts.PlaneMixin_role_taken.
    + now apply Hv.
  - unfold Planar.PlaneMixin.SphericalPlaneMixin__init__.
    pose proof (spherical_validation_error util plane plane_angles plane_offset) as Hv.
    destruct (Planar.spherical_plane_angles util plane plane_angles plane_offset)
      as [[azimuth elevation]|e]; cbn [bind].
    + now apply PlanarFacts.PlaneMixin_role_taken.
    + now apply Hv.
Qed.


Import Fixture.

(** C1, witness: one subject, excluded by the exclude-list. *)
Lemma empty_query_construction_witness :
  exists self,
    __init__ (datapoint false [(1%Z, "left")] []) [("subject", [])] None None None None
      (Some [1%Z]) None None None = Ok self /\
    __len__ self = 0%nat /\
    subject_ids self = [] /\
    _features self = [] /\ _targets self = [] /\ _groups self = [] /\
    row_angles self = [] /\ column_angles self = [].
Proof.
  apply (proj2 (empty_query_construction
                  (datapoint false [(1%Z, "left")] []) [("subject", [])]
                  None None None None (Some [1%Z]) None None None
                  [("subject", [])] eq_refl eq_refl)).
  discriminate.
Defined.

(** C2, witness: azimuths -90, 0, 90 on a spherical datapoint. *)
Lemma both_sides_symmetry_witness :
  exists self,
    __init__ (datapoint true [(1%Z, "left")] (grid [-90; 0; 90] [0]))
      [("hrirs", [("side", CStr "both-left")])] None None None None None
      None None None = Ok self /\
    row_angles self = -90 :: map fst (grid [0; 90] [0]) /\
    column_angles self = [0].
Proof.
  exact (proj1 (proj2 (both_sides_symmetry
                         (datapoint true [(1%Z, "left")] (grid [-90; 0; 90] [0]))
                         [("hrirs", [("side", CStr "both-left")])] None None None None None
                         None None None
                         [("hrirs", [("side", CStr "both-left")])]
                         [("side", CStr "both-left")] "both-left"
                         eq_refl eq_refl eq_refl eq_refl)
                      1%Z "left" [] (-90) [0] (grid [0; 90] [0]) [0; 1; 2]%nat [0]%nat
                      eq_refl eq_refl) eq_refl).
Defined.

(** C2, counterexample: lateral angles -180, -90, 0, 90 meet the
    requirement with its allowance for a singular entry, and a dataset of
    an interaural datapoint is refused for them. *)
Lemma lateral_singular_entry_counterexample :
  antisymmetric_upto_singular [-180; -90; 0; 90] = true /\
  __init__ (datapoint false [(1%Z, "left")] (grid [0] [-180; -90; 0; 90]))
    [("hrirs", [("side", CStr "both-left")])] None None None None None
    None None None =
  Raise (ValueError "Only datasets with symmetric lateral angles can use both-left sides.").
Proof. split; reflexivity. Qed.

(** C3, witness: the two modalities side and subject as features. *)
Lemma getitem_shaping_witness :
  exists self,
    __init__ (datapoint false [(3%Z, "left")] []) [("side", []); ("subject", [])]
      None None None None None None None None = Ok self /\
    exists subject side row_indices column_indices,
      PyList.item (subject_ids self) 0 = Ok subject /\
      option_map (fun s => PyList.item s 0) (sides self) = Some (Ok side) /\
      let record spec :=
        subject_data (datapoint false [(3%Z, "left")] []) spec subject side
          row_indices column_indices in
      let value_of :=
        shown same self (record [("side", []); ("subject", [])]) (record []) (record []) in
      __getitem__ same stack self (IInt 0) =
      Ok {| features := shaping (map value_of (claimed [("side", []); ("subject", [])]));
            target := shaping (map value_of (claimed []));
            group := shaping (map value_of (claimed [])) |}.
Proof.
  eexists. split; [reflexivity|].
  apply (getitem_shaping same stack (datapoint false [(3%Z, "left")] [])
           [("side", []); ("subject", [])] None None None None None
           None None None _ 0%Z eq_refl).
  unfold PyList.valid_index. simpl. lia.
Defined.

(** C3, counterexample: the features specification names side before
    subject, and the features of the example are (subject, side). *)
Lemma specification_order_counterexample :
  exists self,
    __init__ (datapoint false [(3%Z, "left")] []) [("side", []); ("subject", [])]
      None None None None None None None None = Ok self /\
    keys (V:=dict cfg) [("side", []); ("subject", [])] = ["side"; "subject"] /\
    __getitem__ same stack self (IInt 0) =
    Ok {| features := VTuple [VInt 3; VStr "left"];
          target := VEmptyArray;
          group := VEmptyArray |}.
Proof. eexists. repeat split. Qed.


(** C4, witness: subject ids given, no exclude-list. *)
Lemma stored_exclude_ids_witness :
  exists self,
    __init__ (datapoint false [(1%Z, "left")] []) [("subject", [])] None None
      (Some (Ids [1%Z])) None None None None None = Ok self /\
    _exclude_ids self = Some [].
Proof.
  eexists. split; [reflexivity|].
  exact (proj1 (proj2 (stored_exclude_ids
                         (datapoint false [(1%Z, "left")] []) [("subject", [])] None None
                         (Some (Ids [1%Z])) None None None None None _ eq_refl))
               [1%Z] eq_refl eq_refl).
Defined.

(** C4, counterexample: subject ids given as a string, no exclude-list:
    the stored exclude-list stays unset. *)
Lemma string_subject_ids_counterexample :
  exists self,
    __init__ (datapoint false [(1%Z, "left")] []) [("subject", [])] None None
      (Some (IdsStr "first")) None None None None None = Ok self /\
    _exclude_ids self = None.
Proof. eexists. split; reflexivity. Qed.



(** C8, witness: other specifications that name the role of the HRIRs. *)
Lemma role_claims_witness :
  is_ValueError
    (Planar.PlaneMixin.InterauralPlaneMixin__init__ PlanarFixture.base_init
       PlanarFixture.calc_plane_angles PlanarFixture.util "median" "time" "left"
       None 0 false (Planar.CStr "farthest") None None None None false "features"
       (Some [("features_spec", [])]) tt) = true.
Proof.
  exact (proj1 (proj2 (proj1 (role_claims PlanarFixture.base_init
                                PlanarFixture.calc_plane_angles PlanarFixture.util
                                "median" "time" "left" (Planar.CStr "farthest") 0
                                None None None
                                (Planar.InterauralPlaneTransform "median" 0 false) false
                                None None None None false "features"
                                [("features_spec", [])] tt [] [] [] None) eq_refl))).
Defined.

(** C8, counterexample: features and target both claim the modality
    subject, and the dataset is built. *)
Lemma shared_modality_counterexample :
  exists self,
    __init__ (datapoint false [(1%Z, "left")] []) [("subject", [])]
      (Some [("subject", [])]) None None None None None None None = Ok self /\
    __len__ self = 1%nat /\
    __getitem__ same stack self (IInt 0) =
      Ok {| features := VInt 1; target := VInt 1; group := VEmptyArray |}.
Proof. eexists. repeat split. Qed.

(** C10, witness: the one subject of the catalog is excluded. *)
Lemma available_subject_ids_of_nothing_witness :
  exists self,
    __init__ (datapoint false [(1%Z, "left")] []) [("subject", [])] None None None None
      (Some [1%Z]) None None None = Ok self /\
    available_subject_ids self =
      Raise (ValueError "not enough values to unpack (expected 2, got 0)").
Proof.
  eexists. split; [reflexivity|].
  exact (proj2 (available_subject_ids_of_nothing
                  (datapoint false [(1%Z, "left")] []) [("subject", [])] None None None
                  None (Some [1%Z]) None None None _) eq_refl eq_refl eq_refl).
Defined.

(** C10, counterexample: a DatasetView that is empty because of its
    include-list: the catalog still has a subject to offer, and
    [available_subject_ids] returns it. *)
Lemma include_list_counterexample :
  exists self,
    __init__ (datapoint false [(1%Z, "left")] []) [("subject", [])] None None
      (Some (Ids [7%Z])) None None None None None = Ok self /\
    __len__ self = 0%nat /\
    available_subject_ids self = Ok [1%Z].
Proof. eexists. repeat split. Qed.


End FullFacts.


(** ** The scenarios of the specification, run on the model *)

Module Scenarios.
Import Full Full.Props Full.HRTFDataset Full.Fixture.

(** Python's slices: [l[::-2]], [l[1:-1]] and [l[10:0:-1]]. *)
Example slices_of_five :
  PyList.slice [10; 20; 30; 40; 50]%Z None None (Some (-2)%Z) = Ok [50; 30; 10]%Z /\
  PyList.slice [10; 20; 30; 40; 50]%Z (Some 1%Z) (Some (-1)%Z) None = Ok [20; 30; 40]%Z /\
  PyList.slice [10; 20; 30; 40; 50]%Z (Some 10%Z) (Some 0%Z) (Some (-1)%Z)
    = Ok [50; 40; 30; 20]%Z /\
  PyList.slice [10; 20; 30; 40; 50]%Z None None (Some 0%Z)
    = Raise (ValueError "slice step cannot be zero").
Proof. repeat split. Qed.

(** ['features_spec'.split('_spec')[0]] *)
Example split_head_of_names :
  Planar.split_head "_spec" "features_spec" = "features" /\
  Planar.split_head "_spec" "target_spec" = "target" /\
  Planar.split_head "_spec" "group" = "group".
Proof. repeat split. Qed.

(** Azimuths -90, 0, 90 and laterals -90, 0, 90 give a [both-] dataset;
    azimuths -90, 0, 45 do not. *)
Example mirrored_sides :
  is_ok (__init__ (datapoint true [(1%Z, "left")] (grid [-90; 0; 90] [0]))
           [("hrirs", [("side", CStr "both-left")])] None None None None None
           None None None) = true /\
  is_ok (__init__ (datapoint false [(1%Z, "left")] (grid [0] [-90; 0; 90]))
           [("hrirs", [("side", CStr "both-left")])] None None None None None
           None None None) = true /\
  __init__ (datapoint true [(1%Z, "left")] (grid [-90; 0; 45] [0]))
    [("hrirs", [("side", CStr "both-left")])] None None None None None
    None None None =
  Raise (ValueError "Only datasets with symmetric azimuths can use both-left sides.").
Proof. repeat split. Qed.

(** azimuths -180, -90, 0, 90: the entry at -180 maps to itself *)
Example singular_azimuth :
  is_ok (__init__ (datapoint true [(1%Z, "left")] (grid [-180; -90; 0; 90] [0]))
           [("hrirs", [("side", CStr "both-left")])] None None None None None
           None None None) = true.
Proof. reflexivity. Qed.

(** One modality ['subject'] gives the subject id itself; the modalities
    ['subject'] and ['side'] give the pair of them. *)
Example shaping_law :
  (exists self,
     __init__ (datapoint false [(3%Z, "left")] []) [("subject", [])]
       None None None None None None None None = Ok self /\
     __getitem__ same stack self (IInt 0) =
       Ok {| features := VInt 3; target := VEmptyArray; group := VEmptyArray |})
  /\
  (exists self,
     __init__ (datapoint false [(3%Z, "left")] []) [("subject", []); ("side", [])]
       None None None None None None None None = Ok self /\
     __getitem__ same stack self (IInt (-1)) =
       Ok {| features := VTuple [VInt 3; VStr "left"];
             target := VEmptyArray;
             group := VEmptyArray |}).
Proof. split; eexists; split; reflexivity. Qed.

(** [sorted(set(ids))] *)
Example available_ids_sorted :
  exists self,
    __init__ (datapoint false [(3%Z, "left"); (1%Z, "left"); (3%Z, "right")] [])
      [("subject", [])] None None None None None None None None = Ok self /\
    available_subject_ids self = Ok [1; 3]%Z.
Proof. eexists. split; reflexivity. Qed.

(** Writing [positive_angles] twice with one value is writing it once. *)
Lemma positive_angles_setter_idempotent {store : Type}
    (calc_plane_angles :
       Planar.PlaneTransform -> list Q -> list Q -> list (list bool) -> list Q)
    (self : Planar.PlaneMixin.t store) (value : bool) :
  Planar.PlaneMixin.set_positive_angles calc_plane_angles
    (Planar.PlaneMixin.set_positive_angles calc_plane_angles self value) value =
  Planar.PlaneMixin.set_positive_angles calc_plane_angles self value.
Proof. reflexivity. Qed.

End Scenarios.

(** * Further properties of the code *)

(** ** Dictionaries *)

Module DictFacts.
Import PyFacts.
Local Open Scope list_scope.

Section Facts.
Context {V : Type}.
Implicit Types (d a b : dict V) (k : string) (v : V).

Lemma get_present k d : In k (keys d) -> exists v, get k d = Some v.
Proof.
  induction d as [|[k' v'] d IH]; simpl; [tauto|]. intros [->|Hin].
  - rewrite String.eqb_refl. eauto.
  - destruct (String.eqb k k'); eauto.
Qed.

Lemma get_none_keys k d : get k d = None <-> ~ In k (keys d).
Proof.
  split.
  - intros Hg Hin. apply get_present in Hin. destruct Hin as [v Hv]. congruence.
  - apply get_absent.
Qed.

Lemma set_absent k v d : ~ In k (keys d) -> set k v d = d ++ [(k, v)].
Proof.
  induction d as [|[k' v'] d IH]; simpl; [reflexivity|]. intros Hn.
  destruct (String.eqb k k') eqn:E.
  - apply String.eqb_eq in E. subst. exfalso. apply Hn. now left.
  - rewrite IH; [reflexivity|]. intros Hin. apply Hn. now right.
Qed.

Lemma keys_set_present k v d : In k (keys d) -> keys (set k v d) = keys d.
Proof.
  induction d as [|[k' v'] d IH]; simpl; [tauto|]. intros Hin.
  destruct (String.eqb k k') eqn:E; simpl; [reflexivity|].
  rewrite IH; [reflexivity|]. destruct Hin as [->|Hin]; [|exact Hin].
  rewrite String.eqb_refl in E. discriminate.
Qed.

(** Assignment keeps the keys of a dictionary distinct. *)
Lemma NoDup_set k v d : NoDup (keys d) -> NoDup (keys (set k v d)).
Proof.
  intros Hnd. destruct (in_dec string_dec k (keys d)) as [Hin|Hn].
  - now rewrite keys_set_present.
  - rewrite (set_absent _ _ _ Hn). unfold keys. rewrite map_app. simpl.
    apply NoDup_app; [exact Hnd|repeat constructor; simpl; tauto|].
    intros x Hx [<-|[]]. contradiction.
Qed.

Lemma NoDup_update a b : NoDup (keys a) -> NoDup (keys (update a b)).
Proof.
  unfold update. revert a. induction b as [|[k v] b IH]; intros a Ha; simpl; [exact Ha|].
  apply IH. now apply NoDup_set.
Qed.

Lemma fold_set_fresh a b :
  NoDup (keys (a ++ b)) -> fold_left (fun acc kv => set (fst kv) (snd kv) acc) b a = a ++ b.
Proof.
  revert a. induction b as [|[k v] b IH]; intros a Hnd; simpl.
  - now rewrite app_nil_r.
  - assert (Hk : ~ In k (keys a)).
    { unfold keys in *. rewrite map_app in Hnd. simpl in Hnd.
      apply NoDup_remove_2 in Hnd. intros Hin. apply Hnd. apply in_or_app. now left. }
    rewrite (set_absent _ _ _ Hk), IH, <- app_assoc; [reflexivity|].
    now rewrite <- app_assoc.
Qed.

(** Filling an empty dictionary with the items of [b] gives [b]. *)
Lemma update_nil b : NoDup (keys b) -> update [] b = b.
Proof. intros Hnd. unfold update. now rewrite fold_set_fresh. Qed.

Lemma get_update_absent k a b : get k b = None -> get k (update a b) = get k a.
Proof.
  unfold update. revert a. induction b as [|[k' v'] b IH]; intros a; simpl; [reflexivity|].
  destruct (String.eqb k k') eqn:E; [discriminate|]. intros Hb.
  now rewrite (IH _ Hb), get_set, E.
Qed.

End Facts.
End DictFacts.

(** ** The dataset assembler, continued *)

Module AssemblerFacts.
Import Full Full.Props Full.HRTFDataset Full.Fixture FullExt PyFacts DictFacts FullFacts.

(** X1. When several specifications configure one modality, the combined
    specification holds the configuration of the last of them: subject
    requirements before group before target before features.  Its keys
    stay distinct. *)
Theorem combined_specification_priority
    (feature_spec target_spec group_spec : specification)
    (subject_requirements : option specification) (spec : specification) :
  NoDup (keys target_spec) -> NoDup (keys group_spec) ->
  NoDup (keys (or_empty subject_requirements)) ->
  combined_specification feature_spec target_spec group_spec subject_requirements
    = Ok spec ->
  (forall k,
     get k spec =
     match get k (or_empty subject_requirements), get k group_spec,
           get k target_spec with
     | Some c, _, _ => Some c
     | None, Some c, _ => Some c
     | None, None, Some c => Some c
     | None, None, None => get k feature_spec
     end) /\
  (NoDup (keys feature_spec) -> NoDup (keys spec)).
Proof.
  intros Ht Hg Hr. unfold combined_specification.
  destruct (update (update feature_spec target_spec) group_spec) as [|kv m] eqn:E;
    [discriminate|].
  rewrite <- E. intros [= <-]. split.
  - intros k. destruct subject_requirements as [r|]; simpl in *.
    + rewrite !get_update by assumption.
      destruct (get k r), (get k group_spec), (get k target_spec); reflexivity.
    + rewrite !get_update by assumption.
      destruct (get k group_spec), (get k target_spec); reflexivity.
  - intros Hf. destruct subject_requirements as [r|]; repeat apply NoDup_update; exact Hf.
Qed.

Lemma combined_specification_priority_witness :
  get "hrirs"
    (update (update [("hrirs", [("domain", CStr "time")])]
               [("hrirs", [("domain", CStr "magnitude")])]) [("subject", [])])
  = Some [("domain", CStr "magnitude")].
Proof.
  refine (eq_trans
            (proj1 (combined_specification_priority
                      [("hrirs", [("domain", CStr "time")])]
                      [("hrirs", [("domain", CStr "magnitude")])] [("subject", [])]
                      None _ _ _ _ eq_refl) "hrirs") eq_refl);
    repeat constructor; simpl; intuition discriminate.
Defined.

(** Lines 14-15 build the merge that [HRTFDataset.__init__] builds on
    line 50. *)
Lemma samplerate_and_length_of_merge
    (feature_spec : specification) (target_spec group_spec : option specification) :
  NoDup (keys feature_spec) ->
  _get_samplerate_and_length_from_spec (Some feature_spec) target_spec group_spec =
  let merged := update (update feature_spec (or_empty target_spec)) (or_empty group_spec) in
  let hrirs := match get "hrirs" merged with Some h => h | None => [] end in
  (cfg_get "samplerate" CNone hrirs, cfg_get "length" CNone hrirs).
Proof.
  intros Hf. unfold _get_samplerate_and_length_from_spec. cbv zeta.
  assert (Hm : fold_left
                 (fun acc d => fold_left (fun acc kv => set (fst kv) (snd kv) acc) d acc)
                 (flat_map (fun spec : option specification =>
                              match spec with Some d => [d] | None => [] end)
                           [Some feature_spec; target_spec; group_spec]) [] =
               update (update feature_spec (or_empty target_spec)) (or_empty group_spec)).
  { pose proof (update_nil feature_spec Hf) as Hnil. unfold update in *.
    destruct target_spec, group_spec; simpl; rewrite Hnil; reflexivity. }
  now rewrite Hm.
Qed.

Section Collections.
Context {data : Type}.
Variable datapoint_of : collection -> dict argument -> DataPoint.t data.

(** X2. A collection dataset builds its datapoint with the sample rate
    and the length of the ['hrirs'] configuration that its own combined
    specification holds (as long as the subject requirements bring no
    ['hrirs'] entry of their own), and then is the [HRTFDataset] of that
    datapoint, with no image transform. *)
Theorem collection_samplerate_and_length
    (c : collection) (root : string)
    (feature_spec : specification) (target_spec group_spec : option specification)
    (subject_ids : option id_selection) (subject_requirements : option specification)
    (exclude_ids : option (list Z))
    (measurement_transform hrir_transform : option (value data -> value data))
    (o : options) (self : HRTFDataset.t data) :
  NoDup (keys feature_spec) ->
  get "hrirs" (or_empty subject_requirements) = None ->
  collection__init__ datapoint_of c root feature_spec target_spec group_spec subject_ids
    subject_requirements exclude_ids measurement_transform hrir_transform o = Ok self ->
  let hrirs := match get "hrirs" (_specification self) with Some h => h | None => [] end in
  let arguments :=
    datapoint_arguments c root o (cfg_get "samplerate" CNone hrirs)
      (cfg_get "length" CNone hrirs) in
  get "hrir_samplerate" arguments = Some (ACfg (cfg_get "samplerate" CNone hrirs)) /\
  get "hrir_length" arguments = Some (ACfg (cfg_get "length" CNone hrirs)) /\
  __init__ (datapoint_of c arguments) feature_spec target_spec group_spec subject_ids
    subject_requirements exclude_ids None
    (match c with CIPIC | ARI => measurement_transform | _ => None end)
    hrir_transform = Ok self /\
  _query self = DataPoint.query (datapoint_of c arguments) /\
  _image_transform self = None.
Proof.
  intros Hf Hreq. unfold collection__init__.
  rewrite (samplerate_and_length_of_merge _ _ _ Hf). cbv zeta. intros Hc.
  destruct (init_inversion _ _ _ _ _ _ _ _ _ _ _ Hc)
    as (spec & ri & ci & Hcomb & Hs & Hq & _ & Hit & _).
  assert (Hh : get "hrirs" (_specification self) =
               get "hrirs" (update (update feature_spec (or_empty target_spec))
                              (or_empty group_spec))).
  { rewrite Hs. unfold combined_specification in Hcomb.
    destruct (update (update feature_spec (or_empty target_spec)) (or_empty group_spec))
      as [|kv m] eqn:E; [discriminate|].
    injection Hcomb as <-. destruct subject_requirements as [r|]; [|reflexivity].
    now apply get_update_absent. }
  rewrite Hh. repeat split; try assumption; destruct c; reflexivity.
Qed.

End Collections.

Lemma collection_samplerate_and_length_witness :
  exists self,
    collection__init__ (fun _ _ => datapoint false [(1%Z, "left")] (Fixture.grid [0] [0]))
      CIPIC "data" [("hrirs", [("samplerate", CNum 48000)])] None None None None None
      None None defaults = Ok self /\
    get "hrir_samplerate"
      (datapoint_arguments CIPIC "data" defaults
         (cfg_get "samplerate" CNone
            (match get "hrirs" (_specification self) with Some h => h | None => [] end))
         (cfg_get "length" CNone
            (match get "hrirs" (_specification self) with Some h => h | None => [] end)))
    = Some (ACfg (CNum 48000)).
Proof.
  eexists. split; [reflexivity|].
  refine (proj1 (collection_samplerate_and_length
                   (fun _ _ => datapoint false [(1%Z, "left")] (Fixture.grid [0] [0]))
                   CIPIC "data" [("hrirs", [("samplerate", CNum 48000)])] None None
                   None None None None None defaults _ _ eq_refl eq_refl)).
  repeat constructor; simpl; intuition.
Defined.

Lemma In_insert_unique (x y : Z) (l : list Z) :
  In x (PyList.insert_unique y l) <-> x = y \/ In x l.
Proof.
  induction l as [|z l IH]; simpl; [intuition|].
  destruct (Z.ltb_spec y z); [simpl; intuition|].
  destruct (Z.eqb_spec y z); simpl; [subst; intuition|].
  rewrite IH. intuition.
Qed.

Lemma In_sorted_set (x : Z) (l : list Z) : In x (PyList.sorted_set l) <-> In x l.
Proof.
  unfold PyList.sorted_set. induction l as [|y l IH]; simpl; [tauto|].
  rewrite In_insert_unique, IH. intuition.
Qed.

Lemma sorted_insert_unique (y : Z) (l : list Z) :
  StronglySorted Z.lt l -> StronglySorted Z.lt (PyList.insert_unique y l).
Proof.
  induction l as [|z l IH]; intros Hs; simpl; [repeat constructor|].
  inversion Hs as [|? ? Hl Hz]; subst.
  destruct (Z.ltb_spec y z) as [Hlt|Hge].
  - constructor; [exact Hs|]. constructor; [exact Hlt|].
    eapply Forall_impl; [|exact Hz]. intros a Ha. simpl in Ha. lia.
  - destruct (Z.eqb_spec y z); [exact Hs|].
    constructor; [now apply IH|]. apply Forall_forall. intros a Ha.
    apply In_insert_unique in Ha. destruct Ha as [->|Ha]; [lia|].
    rewrite Forall_forall in Hz. now apply Hz.
Qed.

Lemma sorted_sorted_set (l : list Z) : StronglySorted Z.lt (PyList.sorted_set l).
Proof.
  unfold PyList.sorted_set. induction l as [|y l IH]; simpl; [constructor|].
  now apply sorted_insert_unique.
Qed.

(** X10. What [available_subject_ids] returns is in strictly ascending
    order, so without repetition, and holds exactly the subjects of the
    pairs that the catalog returns for the stored specification and
    exclude-list. *)
Theorem available_subject_ids_sorted {data : Type} (self : HRTFDataset.t data)
    (available : list Z) :
  available_subject_ids self = Ok available ->
  StronglySorted Z.lt available /\
  forall s,
    In s available <->
    exists side,
      In (s, side)
         (Query.specification_based_ids (_query self) (_specification self) None
            (_exclude_ids self)).
Proof.
  unfold available_subject_ids.
  destruct (Query.specification_based_ids _ _ None _) as [|e r] eqn:E; [discriminate|].
  intros H. assert (Hav : available = PyList.sorted_set (map fst (e :: r))) by congruence.
  rewrite Hav. clear H Hav. split; [apply sorted_sorted_set|].
  intros s. rewrite In_sorted_set, in_map_iff. split.
  - intros ([s' side] & <- & Hin). now exists side.
  - intros (side & Hin). now exists (s, side).
Qed.

(** The arguments of one call of [HRTFDataset.__init__]; [ids] is its
    [subject_ids]. *)
Section Constructed.
Context {data : Type}.
Variable datapoint : DataPoint.t data.
Variables (feature_spec : specification) (target_spec group_spec : option specification).
Variables (ids : option id_selection) (subject_requirements : option specification).
Variable exclude_ids : option (list Z).
Variables image_transform measurement_transform hrir_transform : option (value data -> value data).

(** the call, the combined specification and the filtered query *)
Let construct : result (HRTFDataset.t data) :=
  __init__ datapoint feature_spec target_spec group_spec ids subject_requirements
    exclude_ids image_transform measurement_transform hrir_transform.

Let combined : result specification :=
  combined_specification feature_spec (or_empty target_spec) (or_empty group_spec)
    subject_requirements.

Let ear_ids (spec : specification) : list ear_id :=
  Query.specification_based_ids (DataPoint.query datapoint) spec ids
    (default_exclude_ids ids exclude_ids).

Lemma constructed_inversion (self : HRTFDataset.t data) :
  construct = Ok self ->
  exists spec row_indices column_indices,
    combined = Ok spec /\
    _specification self = spec /\
    _query self = DataPoint.query datapoint /\
    _exclude_ids self = default_exclude_ids ids exclude_ids /\
    subject_ids self = map fst (ear_ids spec) /\
    _features self =
      map (fun e : ear_id => subject_data datapoint feature_spec (fst e) (snd e)
                               row_indices column_indices) (ear_ids spec) /\
    _targets self =
      map (fun e : ear_id => subject_data datapoint (or_empty target_spec) (fst e) (snd e)
                               row_indices column_indices) (ear_ids spec) /\
    _groups self =
      map (fun e : ear_id => subject_data datapoint (or_empty group_spec) (fst e) (snd e)
                               row_indices column_indices) (ear_ids spec) /\
    (ear_ids spec = [] -> sides self = None) /\
    (ear_ids spec <> [] -> sides self = Some (map snd (ear_ids spec))).
Proof.
  intros Hc. destruct (init_inversion _ _ _ _ _ _ _ _ _ _ _ Hc)
    as (spec & ri & ci & H1 & H2 & H3 & H4 & _ & _ & _ & H5 & H6 & H7 & H8 & H9 & H10).
  exists spec, ri, ci. repeat split; try assumption. intros He. now apply H9.
Qed.

(** X3. The parallel sequences of a constructed dataset are aligned: the
    subject ids, the sides (when there are any) and the three stores all
    have the length of the dataset, and the sides are missing exactly when
    that length is 0. *)
Theorem stores_aligned (self : HRTFDataset.t data) :
  construct = Ok self ->
  List.length (subject_ids self) = __len__ self /\
  List.length (_targets self) = __len__ self /\
  List.length (_groups self) = __len__ self /\
  (forall s, sides self = Some s -> List.length s = __len__ self) /\
  (sides self = None <-> __len__ self = 0%nat).
Proof.
  intros Hc. destruct (constructed_inversion _ Hc)
    as (spec & ri & ci & _ & _ & _ & _ & Hids & Hf & Ht & Hg & Hnil & Hcons).
  unfold __len__. rewrite Hids, Hf, Ht, Hg, !length_map. repeat split.
  - intros s Hs. destruct (ear_ids spec) as [|e r] eqn:E.
    + rewrite Hnil in Hs by reflexivity. discriminate.
    + rewrite Hcons in Hs by discriminate. injection Hs as <-.
      simpl. now rewrite length_map.
  - intros Hs. destruct (ear_ids spec) as [|e r] eqn:E; [reflexivity|].
    rewrite Hcons in Hs by discriminate. discriminate.
  - intros Hl. apply Hnil. now apply length_zero_iff_nil.
Qed.

Lemma get_subject_data (spec : specification) (subject : Z) (side : string)
    (ri ci : list nat) :
  let record := subject_data datapoint spec subject side ri ci in
  get "subject" record = (if contains "subject" spec then Some (VInt subject) else None) /\
  get "side" record = (if contains "side" spec then Some (VStr side) else None) /\
  get "collection" record =
    (if contains "collection" spec
     then Some (VStr (Query.collection_id (DataPoint.query datapoint))) else None).
Proof.
  cbv zeta. unfold subject_data. rewrite !contains_get.
  destruct (get "images" spec), (get "anthropometry" spec), (get "hrirs" spec),
    (get "subject" spec), (get "side" spec), (get "collection" spec);
    repeat split; reflexivity.
Qed.

(** X4. In a constructed dataset every stored record of a role holds
    exactly the modalities that the role's specification claims, in the
    order images, anthropometry, hrirs, subject, side, collection; and the
    entries 'subject', 'side' and 'collection' of the record at a position
    are the subject id and the side at that position and the collection id
    of the catalog. *)
Theorem stored_records (self : HRTFDataset.t data) :
  construct = Ok self ->
  let holds (spec : specification) (store : list (dict (value data))) :=
    forall (i : nat) (record : dict (value data)),
      nth_error store i = Some record ->
      keys record = claimed spec /\
      (contains "subject" spec = true ->
       option_map VInt (nth_error (subject_ids self) i) = get "subject" record) /\
      (contains "side" spec = true ->
       exists s, sides self = Some s /\
                 option_map VStr (nth_error s i) = get "side" record) /\
      (contains "collection" spec = true ->
       get "collection" record = Some (VStr (Query.collection_id (_query self)))) in
  holds feature_spec (_features self) /\
  holds (or_empty target_spec) (_targets self) /\
  holds (or_empty group_spec) (_groups self).
Proof.
  intros Hc. destruct (constructed_inversion _ Hc)
    as (spec & ri & ci & _ & _ & Hq & _ & Hids & Hf & Ht & Hg & _ & Hcons).
  cbv zeta.
  assert (Hrole : forall role i record,
             nth_error
               (map (fun e : ear_id => subject_data datapoint role (fst e) (snd e) ri ci)
                    (ear_ids spec)) i = Some record ->
             keys record = claimed role /\
             (contains "subject" role = true ->
              option_map VInt (nth_error (subject_ids self) i) = get "subject" record) /\
             (contains "side" role = true ->
              exists s, sides self = Some s /\
                        option_map VStr (nth_error s i) = get "side" record) /\
             (contains "collection" role = true ->
              get "collection" record = Some (VStr (Query.collection_id (_query self))))).
  { intros role i record Hn. rewrite nth_error_map in Hn.
    destruct (nth_error (ear_ids spec) i) as [[subject side]|] eqn:He; [|discriminate].
    injection Hn as <-. simpl.
    destruct (get_subject_data role subject side ri ci) as (Hsub & Hside & Hcol).
    split; [apply keys_subject_data|]. split; [|split].
    - intros Hin. rewrite Hsub, Hin, Hids, nth_error_map.
      unfold ear_id in *. now rewrite He.
    - intros Hin. exists (map snd (ear_ids spec)). split.
      + apply Hcons. intros Hnil. rewrite Hnil in He. now destruct i.
      + rewrite Hside, Hin, nth_error_map. unfold ear_id in *. now rewrite He.
    - intros Hin. now rewrite Hcol, Hin, Hq. }
  rewrite Hf, Ht, Hg. split; [|split]; intros i record Hn; now apply Hrole.
Qed.

(** X5. Without an ['hrirs'] entry in the combined specification no grid
    is resolved: once the catalog returns ids the construction succeeds,
    the dataset has one example for each id, and its selected angles, row
    angles and column angles are empty. *)
Theorem construction_without_hrirs (spec : specification) :
  combined = Ok spec ->
  get "hrirs" spec = None ->
  ear_ids spec <> [] ->
  exists self,
    construct = Ok self /\
    __len__ self = List.length (ear_ids spec) /\
    subject_ids self = map fst (ear_ids spec) /\
    _selected_angles self = [] /\ row_angles self = [] /\ column_angles self = [].
Proof.
  intros Hc Hh He. unfold construct, __init__. fold combined. rewrite Hc. cbn [bind].
  fold (ear_ids spec). destruct (ear_ids spec) as [|[first_subject first_side] rest];
    [congruence|].
  unfold select_angles. rewrite Hh. cbn [bind].
  eexists. split; [reflexivity|]. unfold __len__. cbn. rewrite length_map.
  repeat split.
Qed.

(** X6. For a side that does not begin with ['both-'] the grid is not
    tested for symmetry: once the catalog returns ids and the provider a
    grid, the construction succeeds whatever the angles are, with the row
    angles of the grid and the column angles of its first row. *)
Theorem construction_for_one_side (spec : specification) (hrirs : dict cfg) (side : string)
    (first_subject : Z) (first_side : string) (rest : list ear_id)
    (row : Q) (first_columns : list Q) (grid : angle_map)
    (row_indices column_indices : list nat) :
  combined = Ok spec ->
  get "hrirs" spec = Some hrirs ->
  cfg_get "side" (CStr "") hrirs = CStr side ->
  String.prefix "both-" side = false ->
  ear_ids spec = (first_subject, first_side) :: rest ->
  DataPoint.hrir_angle_indices datapoint first_subject
    (cfg_get "row_angles" CNone hrirs) (cfg_get "column_angles" CNone hrirs) =
    ((row, first_columns) :: grid, row_indices, column_indices) ->
  exists self,
    construct = Ok self /\
    _selected_angles self = (row, first_columns) :: grid /\
    row_angles self = row :: map fst grid /\
    column_angles self = first_columns /\
    __len__ self = S (List.length rest).
Proof.
  intros Hc Hh Hside Hp He Hg. unfold construct, __init__. fold combined.
  rewrite Hc. cbn [bind]. fold (ear_ids spec). rewrite He.
  unfold select_angles, check_both_sides. rewrite Hh, Hside, Hg. cbn [map fst snd].
  rewrite Hp. cbn [bind].
  eexists. split; [reflexivity|]. unfold __len__. cbn. rewrite length_map.
  repeat split.
Qed.

(** X7. With an ['hrirs'] entry and ids from the catalog, a provider that
    resolves the request to an empty grid makes the construction raise
    [IndexError], and a side that is no string makes it raise
    [AttributeError]. *)
Theorem angle_resolution_errors (spec : specification) (hrirs : dict cfg)
    (first_subject : Z) (first_side : string) (rest : list ear_id) :
  combined = Ok spec ->
  get "hrirs" spec = Some hrirs ->
  ear_ids spec = (first_subject, first_side) :: rest ->
  let resolved :=
    DataPoint.hrir_angle_indices datapoint first_subject
      (cfg_get "row_angles" CNone hrirs) (cfg_get "column_angles" CNone hrirs) in
  (fst (fst resolved) = [] -> construct = Raise IndexError) /\
  (fst (fst resolved) <> [] ->
   (forall s, cfg_get "side" (CStr "") hrirs <> CStr s) ->
   construct = Raise AttributeError).
Proof.
  intros Hc Hh He. cbv zeta.
  unfold construct, __init__. fold combined. rewrite Hc. cbn [bind].
  fold (ear_ids spec). rewrite He. unfold select_angles. rewrite Hh.
  destruct (DataPoint.hrir_angle_indices _ _ _ _) as [[sel ri] ci]. cbn [fst].
  split.
  - intros ->. reflexivity.
  - intros Hne Hside. destruct sel as [|[row cols] grid]; [congruence|]. cbn [map snd].
    destruct (cfg_get "side" (CStr "") hrirs) as [| | s | | |] eqn:E; try reflexivity.
    exfalso. now apply (Hside s).
Qed.

(** X8. With no include-list, every subject id of a constructed dataset
    that is not empty is among its [available_subject_ids]. *)
Theorem subject_ids_available (self : HRTFDataset.t data) :
  construct = Ok self -> ids = None -> __len__ self <> 0%nat ->
  exists available,
    available_subject_ids self = Ok available /\
    forall s, In s (subject_ids self) -> In s available.
Proof.
  intros Hc Hids Hlen. destruct (constructed_inversion _ Hc)
    as (spec & ri & ci & _ & Hs & Hq & He & Hsub & Hf & _).
  unfold available_subject_ids. rewrite Hs, Hq, He.
  unfold __len__ in Hlen. rewrite Hf, length_map in Hlen.
  rewrite Hsub. unfold ear_ids in *. rewrite Hids in *.
  destruct (Query.specification_based_ids _ spec None _) as [|e r] eqn:E;
    [now elim Hlen|].
  eexists. split; [reflexivity|]. intros s Hin. now apply In_sorted_set.
Qed.

Section Shape.
Context {shape : Type}.
Variable hstack_shape : list (value data) -> result shape.

(** X9. [target_shape] reads the first stored target record only: on a
    constructed dataset of length 0 it raises [IndexError]; otherwise it is
    the shape of the stacked values of a record whose keys are the
    modalities that the target specification claims, so with no target
    specification [np.hstack] is given nothing. *)
Theorem target_shape_of_first (self : HRTFDataset.t data) :
  construct = Ok self ->
  (__len__ self = 0%nat -> target_shape hstack_shape self = Raise IndexError) /\
  (__len__ self <> 0%nat ->
   exists record,
     nth_error (_targets self) 0 = Some record /\
     keys record = claimed (or_empty target_spec) /\
     target_shape hstack_shape self = hstack_shape (values record) /\
     (target_spec = None -> target_shape hstack_shape self = hstack_shape [])).
Proof.
  intros Hc. destruct (constructed_inversion _ Hc)
    as (spec & ri & ci & _ & _ & _ & _ & _ & Hf & Ht & _).
  unfold __len__, target_shape. rewrite Hf, Ht, !length_map.
  destruct (ear_ids spec) as [|[subject side] rest]; simpl; split; try congruence.
  intros _. eexists. split; [reflexivity|]. split; [apply keys_subject_data|].
  split; [reflexivity|]. intros ->. reflexivity.
Qed.

End Shape.

End Constructed.

Lemma isclose_of_eq (a b : Q) : a == b -> Np.isclose a b = true.
Proof.
  intros Hab. unfold Np.isclose. apply Qle_bool_iff.
  assert (H0 : a - b == 0) by (rewrite Hab; ring).
  rewrite H0. pose proof (Qabs_nonneg b) as Hb.
  change (Qabs 0) with 0. unfold Np.atol, Np.rtol. lra.
Qed.

Lemma allclose_of_eq (a b : list Q) : Forall2 Qeq a b -> Np.allclose a b = true.
Proof.
  unfold Np.allclose. induction 1 as [|x y a b Hxy _ IH]; simpl; [reflexivity|].
  now rewrite (isclose_of_eq _ _ Hxy), IH.
Qed.

(** X11. A grid that is its own mirror image is never refused: column
    angles that equal their negated reverse pass the test of any datapoint
    that is not spherical, and row angles that equal their negated reverse
    pass the test of a spherical datapoint when the first of them is not
    close to -180; when it is, the remaining row angles are the ones that
    have to be mirrored. *)
Theorem mirrored_grid_accepted (side : string) (first : Q) (rest columns : list Q) :
  (Forall2 Qeq columns (Np.neg_flip columns) ->
   check_both_sides false side (first :: rest) columns = Ok tt) /\
  (Np.isclose first (-180) = false ->
   Forall2 Qeq (first :: rest) (Np.neg_flip (first :: rest)) ->
   check_both_sides true side (first :: rest) columns = Ok tt) /\
  (Np.isclose first (-180) = true ->
   Forall2 Qeq rest (Np.neg_flip rest) ->
   check_both_sides true side (first :: rest) columns = Ok tt).
Proof.
  unfold check_both_sides. destruct (String.prefix "both-" side); [|repeat split].
  split; [|split].
  - intros H. now rewrite (allclose_of_eq _ _ H).
  - intros Hc H. rewrite Hc. cbn [skipn]. now rewrite (allclose_of_eq _ _ H).
  - intros Hc H. rewrite Hc. cbn [skipn]. now rewrite (allclose_of_eq _ _ H).
Qed.

Lemma mirrored_grid_accepted_witness :
  check_both_sides false "both-left" [0] [-80; -45; 0; 45; 80] = Ok tt.
Proof.
  apply (proj1 (mirrored_grid_accepted "both-left" 0 [] [-80; -45; 0; 45; 80])).
  repeat constructor; reflexivity.
Defined.

Section Indexing.
Context {data : Type}.
Variable resize_L : value data -> value data.
Variable np_stack : list (value data) -> option (value data).

Lemma item_out_of_range {A : Type} (l : list A) (i : Z) :
  ~ PyList.valid_index i (List.length l) -> PyList.item l i = Raise IndexError.
Proof.
  unfold PyList.valid_index, PyList.item. intros Hn.
  destruct (Z.ltb_spec i 0);
    destruct (Z.ltb_spec (i + Z.of_nat (List.length l)) 0);
    destruct (Z.ltb_spec i 0);
    destruct (Z.leb_spec (Z.of_nat (List.length l)) (i + Z.of_nat (List.length l)));
    destruct (Z.leb_spec (Z.of_nat (List.length l)) i);
    try reflexivity; try lia.
Qed.

Lemma item_from_the_end {A : Type} (l : list A) (n : nat) (i : Z) :
  List.length l = n -> (0 <= i < Z.of_nat n)%Z ->
  PyList.item l (i - Z.of_nat n) = PyList.item l i.
Proof.
  intros <- Hi. unfold PyList.item.
  destruct (Z.ltb_spec (i - Z.of_nat (List.length l)) 0); [|lia].
  destruct (Z.ltb_spec i 0); [lia|].
  now replace (i - Z.of_nat (List.length l) + Z.of_nat (List.length l))%Z with i by lia.
Qed.

(** X12. Retrieval by an integer index succeeds exactly for the indices
    of [-len, len): on aligned stores every such index gives an example,
    the index [i - len] gives the example of the index [i], and any other
    index raises [IndexError]. *)
Theorem integer_index_bounds (self : HRTFDataset.t data) (i : Z) :
  (~ PyList.valid_index i (__len__ self) ->
   __getitem__ resize_L np_stack self (IInt i) = Raise IndexError) /\
  (aligned self -> PyList.valid_index i (__len__ self) ->
   exists e, __getitem__ resize_L np_stack self (IInt i) = Ok e) /\
  (aligned self -> (0 <= i < Z.of_nat (__len__ self))%Z ->
   __getitem__ resize_L np_stack self (IInt (i - Z.of_nat (__len__ self))) =
   __getitem__ resize_L np_stack self (IInt i)).
Proof.
  split; [|split].
  - intros Hn. unfold __getitem__, __len__ in *. now rewrite (item_out_of_range _ _ Hn).
  - intros [Ht Hg] Hi. unfold __getitem__, __len__ in *.
    destruct (item_nth (_features self) i Hi) as (f & _ & ->).
    destruct (item_nth (_targets self) i) as (t & _ & ->); [now rewrite Ht|].
    destruct (item_nth (_groups self) i) as (g & _ & ->); [now rewrite Hg|].
    cbn [bind]. rewrite get_single_item_shown. eauto.
  - intros [Ht Hg] Hi. unfold __getitem__, __len__ in *.
    now rewrite (item_from_the_end (_features self) _ i eq_refl Hi),
      (item_from_the_end (_targets self) _ i Ht Hi),
      (item_from_the_end (_groups self) _ i Hg Hi).
Qed.

(** Retrieval by a slice is retrieval of each of its indices, then
    stacking. *)
Lemma getitem_slice (self : HRTFDataset.t data) (start stop step : option Z)
    (js : list Z) :
  aligned self ->
  PyList.slice_indices start stop step (Z.of_nat (__len__ self)) = Ok js ->
  __getitem__ resize_L np_stack self (ISlice start stop step) =
  bind (PyList.traverse (fun j => __getitem__ resize_L np_stack self (IInt j)) js)
       (stack_items np_stack).
Proof.
  intros Hal Hjs.
  pose proof (slice_indices_in_range _ _ _ _ _ (Nat2Z.is_nonneg _) Hjs) as Hrange.
  pose proof (traverse_picked resize_L np_stack self js Hal Hrange) as Hpick.
  cbv zeta in Hpick. destruct Hal as [Ht Hg].
  unfold __getitem__ at 1, PyList.slice. unfold __len__ in Hjs.
  rewrite Ht, Hg, Hjs. cbn [bind]. now rewrite Hpick.
Qed.

Lemma slice_of_nothing (start stop step : option Z) :
  step <> Some 0%Z -> PyList.slice_indices start stop step 0 = Ok [].
Proof.
  intros Hs. unfold PyList.slice_indices.
  set (s := match step with None => 1%Z | Some s => s end).
  assert (Hs0 : s <> 0%Z) by (unfold s; destruct step; congruence).
  destruct (Z.eqb_spec s 0); [contradiction|].
  pose proof (adjust_bounds start 0 s 0 (0 - 1)) as Hf.
  pose proof (adjust_bounds stop 0 s 0 (-1)) as Hl.
  cbv zeta in Hf, Hl.
  set (first := PyList.adjust start 0 s 0 (0 - 1)) in *.
  set (last := PyList.adjust stop 0 s 0 (-1)) in *.
  assert (Hc : (if (0 <? s)%Z
                then (if (first <? last)%Z then (last - first - 1) / s + 1 else 0)
                else (if (last <? first)%Z then (first - last - 1) / - s + 1 else 0))%Z
               = 0%Z).
  { destruct (Z.ltb_spec 0 s); destruct (Z.ltb_spec first last);
      destruct (Z.ltb_spec last first); try reflexivity; lia. }
  now rewrite Hc.
Qed.

(** X13. Retrieval by a slice fails in two cases that have nothing to do
    with shapes: a step of zero raises the [ValueError] of the list
    ('slice step cannot be zero'), and a slice that selects no example, as
    every slice of a dataset of length 0 does, raises [IndexError]. *)
Theorem slice_failures (self : HRTFDataset.t data) (start stop step : option Z) :
  __getitem__ resize_L np_stack self (ISlice start stop (Some 0%Z)) =
    Raise (ValueError "slice step cannot be zero") /\
  (aligned self ->
   PyList.slice_indices start stop step (Z.of_nat (__len__ self)) = Ok [] ->
   __getitem__ resize_L np_stack self (ISlice start stop step) = Raise IndexError) /\
  (aligned self -> __len__ self = 0%nat -> step <> Some 0%Z ->
   __getitem__ resize_L np_stack self (ISlice start stop step) = Raise IndexError).
Proof.
  split; [reflexivity|]. split.
  - intros Hal Hjs. now rewrite (getitem_slice self _ _ _ [] Hal Hjs).
  - intros Hal Hlen Hs. rewrite (getitem_slice self _ _ _ [] Hal); [reflexivity|].
    rewrite Hlen. now apply slice_of_nothing.
Qed.

Lemma slice_indices_whole (n : nat) :
  PyList.slice_indices None None None (Z.of_nat n) = Ok (map Z.of_nat (seq 0 n)).
Proof.
  unfold PyList.slice_indices, PyList.adjust. cbn [Z.eqb Z.ltb Z.compare].
  destruct (Z.ltb_spec 0 (Z.of_nat n)) as [Hpos|Hz].
  - rewrite Z.div_1_r. replace (Z.to_nat (Z.of_nat n - 0 - 1 + 1)) with n by lia.
    f_equal. apply map_ext. intros k. lia.
  - assert (n = 0%nat) by lia. subst. reflexivity.
Qed.

Lemma slice_indices_reversed (n : nat) :
  PyList.slice_indices None None (Some (-1)%Z) (Z.of_nat n) =
  Ok (map (fun k => (Z.of_nat n - 1 - Z.of_nat k)%Z) (seq 0 n)).
Proof.
  unfold PyList.slice_indices, PyList.adjust. cbn [Z.eqb Z.ltb Z.compare Z.opp].
  destruct (Z.ltb_spec (-1) (Z.of_nat n - 1)) as [Hpos|Hz].
  - rewrite Z.div_1_r.
    replace (Z.to_nat (Z.of_nat n - 1 - -1 - 1 + 1)) with n by lia.
    f_equal. apply map_ext. intros k. lia.
  - assert (n = 0%nat) by lia. subst. reflexivity.
Qed.

Lemma slice_indices_range (n : nat) (a b : Z) :
  (0 <= a <= b)%Z -> (b <= Z.of_nat n)%Z ->
  PyList.slice_indices (Some a) (Some b) None (Z.of_nat n) =
  Ok (map (fun k => (a + Z.of_nat k)%Z) (seq 0 (Z.to_nat (b - a)))).
Proof.
  intros Hab Hbn. unfold PyList.slice_indices, PyList.adjust.
  cbn [Z.eqb Z.ltb Z.compare].
  destruct (Z.ltb_spec a 0); [lia|]. destruct (Z.ltb_spec b 0); [lia|].
  rewrite !Z.min_l by lia.
  destruct (Z.ltb_spec a b) as [Hlt|Hge].
  - rewrite Z.div_1_r. replace (b - a - 1 + 1)%Z with (b - a)%Z by lia.
    f_equal. apply map_ext. intros k. lia.
  - replace (b - a)%Z with 0%Z by lia. reflexivity.
Qed.

(** X14. On aligned stores [ds[:]] stacks the examples of the indices 0,
    1, ..., len-1 in this order, [ds[::-1]] those of len-1, ..., 0, and
    [ds[a:b]] with [0 <= a <= b <= len] those of a, ..., b-1. *)
Theorem slices_in_order (self : HRTFDataset.t data) (a b : Z) :
  aligned self ->
  let n := __len__ self in
  let retrieve js :=
    bind (PyList.traverse (fun j => __getitem__ resize_L np_stack self (IInt j)) js)
         (stack_items np_stack) in
  __getitem__ resize_L np_stack self (ISlice None None None) =
    retrieve (map Z.of_nat (seq 0 n)) /\
  __getitem__ resize_L np_stack self (ISlice None None (Some (-1)%Z)) =
    retrieve (map (fun k => (Z.of_nat n - 1 - Z.of_nat k)%Z) (seq 0 n)) /\
  ((0 <= a <= b)%Z -> (b <= Z.of_nat n)%Z ->
   __getitem__ resize_L np_stack self (ISlice (Some a) (Some b) None) =
     retrieve (map (fun k => (a + Z.of_nat k)%Z) (seq 0 (Z.to_nat (b - a))))).
Proof.
  intros Hal. cbv zeta. split; [|split].
  - apply (getitem_slice self _ _ _ _ Hal), slice_indices_whole.
  - apply (getitem_slice self _ _ _ _ Hal), slice_indices_reversed.
  - intros Hab Hbn. now apply (getitem_slice self _ _ _ _ Hal), slice_indices_range.
Qed.

End Indexing.

(** *** The theorems above on the small catalog *)

Lemma stores_aligned_witness :
  exists self,
    __init__ (datapoint false [(1%Z, "left"); (2%Z, "right")] []) [("subject", [])]
      None None None None None None None None = Ok self /\
    List.length (subject_ids self) = __len__ self /\
    (sides self = None <-> __len__ self = 0%nat).
Proof.
  eexists. split; [reflexivity|].
  pose proof (stores_aligned (datapoint false [(1%Z, "left"); (2%Z, "right")] [])
                [("subject", [])] None None None None None None None None _ eq_refl) as H.
  exact (conj (proj1 H) (proj2 (proj2 (proj2 (proj2 H))))).
Defined.

Lemma stored_records_witness :
  exists self,
    __init__ (datapoint false [(1%Z, "left"); (2%Z, "right")] [])
      [("side", []); ("subject", [])] None None None None None None None None = Ok self /\
    forall (i : nat) (record : dict (value Z)),
      nth_error (_features self) i = Some record ->
      keys record = claimed [("side", []); ("subject", [])] /\
      (contains "subject" [("side", ([] : dict cfg)); ("subject", [])] = true ->
       option_map VInt (nth_error (subject_ids self) i) = get "subject" record) /\
      (contains "side" [("side", ([] : dict cfg)); ("subject", [])] = true ->
       exists s, sides self = Some s /\
                 option_map VStr (nth_error s i) = get "side" record) /\
      (contains "collection" [("side", ([] : dict cfg)); ("subject", [])] = true ->
       get "collection" record = Some (VStr (Query.collection_id (_query self)))).
Proof.
  eexists. split; [reflexivity|].
  exact (proj1 (stored_records (datapoint false [(1%Z, "left"); (2%Z, "right")] [])
                  [("side", []); ("subject", [])] None None None None None None None None
                  _ eq_refl)).
Defined.

Lemma construction_without_hrirs_witness :
  exists self,
    __init__ (datapoint false [(1%Z, "left"); (2%Z, "right")] []) [("subject", [])]
      None None None None None None None None = Ok self /\
    __len__ self = 2%nat /\
    subject_ids self = [1%Z; 2%Z] /\
    _selected_angles self = [] /\ row_angles self = [] /\ column_angles self = [].
Proof.
  apply (construction_without_hrirs (datapoint false [(1%Z, "left"); (2%Z, "right")] [])
           [("subject", [])] None None None None None None None None
           [("subject", [])] eq_refl eq_refl).
  discriminate.
Defined.

Lemma construction_for_one_side_witness :
  exists self,
    __init__ (datapoint true [(1%Z, "left")] (Fixture.grid [-90; 0; 45] [0; 10]))
      [("hrirs", [("side", CStr "left")])] None None None None None None None None
      = Ok self /\
    _selected_angles self = (-90, [0; 10]) :: Fixture.grid [0; 45] [0; 10] /\
    row_angles self = -90 :: map fst (Fixture.grid [0; 45] [0; 10]) /\
    column_angles self = [0; 10] /\
    __len__ self = 1%nat.
Proof.
  exact (construction_for_one_side
           (datapoint true [(1%Z, "left")] (Fixture.grid [-90; 0; 45] [0; 10]))
           [("hrirs", [("side", CStr "left")])] None None None None None None None None
           [("hrirs", [("side", CStr "left")])] [("side", CStr "left")] "left"
           1%Z "left" [] (-90) [0; 10] (Fixture.grid [0; 45] [0; 10])
           [0; 1; 2]%nat [0; 1]%nat eq_refl eq_refl eq_refl eq_refl eq_refl eq_refl).
Defined.

Lemma angle_resolution_errors_witness :
  __init__ (datapoint true [(1%Z, "left")] [])
    [("hrirs", [("side", CStr "left")])] None None None None None None None None
  = Raise IndexError.
Proof.
  exact (proj1 (angle_resolution_errors (datapoint true [(1%Z, "left")] [])
                  [("hrirs", [("side", CStr "left")])] None None None None None
                  None None None
                  [("hrirs", [("side", CStr "left")])] [("side", CStr "left")]
                  1%Z "left" [] eq_refl eq_refl eq_refl) eq_refl).
Defined.

Lemma subject_ids_available_witness :
  exists self,
    __init__ (datapoint false [(2%Z, "left"); (1%Z, "left")] []) [("subject", [])]
      None None None None None None None None = Ok self /\
    exists available,
      available_subject_ids self = Ok available /\
      forall s, In s (subject_ids self) -> In s available.
Proof.
  eexists. split; [reflexivity|].
  apply (subject_ids_available (datapoint false [(2%Z, "left"); (1%Z, "left")] [])
           [("subject", [])] None None None None None None None None _ eq_refl eq_refl).
  discriminate.
Defined.

Lemma target_shape_of_first_witness :
  exists self,
    __init__ (datapoint false [(1%Z, "left")] []) [("subject", [])] None None None None
      (Some [1%Z]) None None None = Ok self /\
    target_shape (fun l => Ok (List.length l)) self = Raise IndexError.
Proof.
  eexists. split; [reflexivity|].
  exact (proj1 (target_shape_of_first (datapoint false [(1%Z, "left")] [])
                  [("subject", [])] None None None None (Some [1%Z]) None None None
                  (fun l => Ok (List.length l)) _ eq_refl) eq_refl).
Defined.

Lemma available_subject_ids_sorted_witness :
  exists self,
    __init__ (datapoint false [(3%Z, "left"); (1%Z, "left"); (3%Z, "right")] [])
      [("subject", [])] None None None None None None None None = Ok self /\
    available_subject_ids self = Ok [1%Z; 3%Z] /\
    StronglySorted Z.lt [1%Z; 3%Z].
Proof.
  eexists. split; [reflexivity|].
  match goal with
  | |- available_subject_ids ?s = _ /\ _ =>
      split;
      [reflexivity
      |exact (proj1 (available_subject_ids_sorted s [1%Z; 3%Z] eq_refl))]
  end.
Defined.

Lemma integer_index_bounds_witness :
  exists self,
    __init__ (datapoint false [(1%Z, "left"); (2%Z, "right")] []) [("subject", [])]
      None None None None None None None None = Ok self /\
    __getitem__ same stack self (IInt 2) = Raise IndexError.
Proof.
  eexists. split; [reflexivity|].
  apply (proj1 (integer_index_bounds same stack _ 2%Z)).
  unfold PyList.valid_index. simpl. lia.
Defined.

Lemma slices_in_order_witness :
  exists self,
    __init__ (datapoint false [(1%Z, "left"); (2%Z, "right")] []) [("subject", [])]
      None None None None None None None None = Ok self /\
    __getitem__ same stack self (ISlice None None None) =
    bind (PyList.traverse (fun j => __getitem__ same stack self (IInt j))
            (map Z.of_nat (seq 0 (__len__ self))))
         (stack_items stack).
Proof.
  eexists. split; [reflexivity|].
  match goal with
  | |- __getitem__ _ _ ?s _ = _ =>
      refine (proj1 (slices_in_order same stack s 0%Z 0%Z _))
  end.
  split; reflexivity.
Defined.

End AssemblerFacts.

(** ** The plane facades, continued *)

Module FacadeFacts.
Import Planar PlanarExt PyFacts DictFacts.

Section Facts.
Context {store kwargs : Type}.
Variable base_init : dict specification -> kwargs -> result (DatasetView store).
Variable calc_plane_angles :
  PlaneTransform -> list Q -> list Q -> list (list bool) -> list Q.
Variable util : Util.

(** X15. The validation of a plane dataset, for every plane name: the
    interaural one passes exactly for horizontal and frontal at offset 0
    and for median and interaural at any offset, the spherical one exactly
    for median and frontal at offset 0 and for horizontal and vertical at
    any offset; whatever does not pass raises [ValueError]. *)
Theorem plane_validation_complete (plane : string) (plane_angles : angles)
    (plane_offset : Q) :
  let interaural := interaural_plane_angles util plane plane_angles plane_offset in
  let spherical := spherical_plane_angles util plane plane_angles plane_offset in
  is_ok interaural =
    ((plane =? "horizontal") && negb (nonzero plane_offset)
     || (plane =? "median")
     || (plane =? "frontal") && negb (nonzero plane_offset)
     || (plane =? "interaural"))%bool /\
  is_ValueError interaural = negb (is_ok interaural) /\
  is_ok spherical =
    ((plane =? "horizontal")
     || (plane =? "median") && negb (nonzero plane_offset)
     || (plane =? "frontal") && negb (nonzero plane_offset)
     || (plane =? "vertical"))%bool /\
  is_ValueError spherical = negb (is_ok spherical).
Proof.
  cbv zeta. unfold interaural_plane_angles, spherical_plane_angles, str_in.
  cbn [existsb].
  destruct (plane =? "horizontal") eqn:E1; [apply String.eqb_eq in E1; subst plane|];
    [cbn [String.eqb Ascii.eqb Bool.eqb]; destruct (nonzero plane_offset); repeat split|].
  destruct (plane =? "median") eqn:E2; [apply String.eqb_eq in E2; subst plane|];
    [cbn [String.eqb Ascii.eqb Bool.eqb]; destruct (nonzero plane_offset); repeat split|].
  destruct (plane =? "frontal") eqn:E3; [apply String.eqb_eq in E3; subst plane|];
    [cbn [String.eqb Ascii.eqb Bool.eqb]; destruct (nonzero plane_offset); repeat split|].
  destruct (plane =? "interaural") eqn:E4, (plane =? "vertical") eqn:E5;
    destruct (nonzero plane_offset); repeat split.
Qed.

(** What a successful [PlaneMixin.__init__] leaves behind. *)
Lemma PlaneMixin_inversion
    (plane domain side : string) (distance : cfg) (plane_offset : Q)
    (fundamental orthogonal : angles) (planar_transform : PlaneTransform)
    (hrir_offset hrir_scaling hrir_samplerate hrir_length : option Q)
    (hrir_min_phase : bool) (hrir_role : string)
    (other_specs : option (dict specification)) (kw : kwargs) (self : PlaneMixin.t store) :
  PlaneMixin.__init__ base_init calc_plane_angles plane domain side distance plane_offset
    fundamental orthogonal planar_transform hrir_offset hrir_scaling hrir_samplerate
    hrir_length hrir_min_phase hrir_role other_specs kw = Ok self ->
  let others := match other_specs with None => [] | Some o => o end in
  str_in plane ["horizontal"; "median"; "frontal"; "vertical"; "interaural"] = true /\
  PlaneMixin.role_taken hrir_role others = None /\
  base_init
    (update [(hrir_role ++ "_spec",
              PlaneMixin.hrirs_spec domain side distance fundamental orthogonal
                hrir_offset hrir_scaling hrir_samplerate hrir_length hrir_min_phase)]
            others) kw = Ok (PlaneMixin.view self) /\
  PlaneMixin._plane self = plane /\
  PlaneMixin._plane_offset self = plane_offset /\
  PlaneMixin._domain self = domain /\
  PlaneMixin._planar_transform self = planar_transform /\
  PlaneMixin.plane_angles self =
    calc_plane_angles planar_transform (fundamental_angles (PlaneMixin.view self))
      (orthogonal_angles (PlaneMixin.view self)) (_selection_mask (PlaneMixin.view self)).
Proof.
  unfold PlaneMixin.__init__. cbv zeta.
  destruct (str_in plane _); cbn [negb]; [|discriminate].
  destruct (PlaneMixin.role_taken hrir_role _); [discriminate|].
  destruct (base_init _ kw) as [v|e]; cbn [bind]; [|discriminate].
  intros [= <-]. repeat split.
Qed.

(** X16. A facade that [PlaneMixin.__init__] has constructed holds one of
    the five plane names, the offset, the domain and the transform that it
    was given, and plane angles that are those of its transform on the
    angles and the mask of the underlying DatasetView. *)
Theorem constructed_facade
    (plane domain side : string) (distance : cfg) (plane_offset : Q)
    (fundamental orthogonal : angles) (planar_transform : PlaneTransform)
    (hrir_offset hrir_scaling hrir_samplerate hrir_length : option Q)
    (hrir_min_phase : bool) (hrir_role : string)
    (other_specs : option (dict specification)) (kw : kwargs) (self : PlaneMixin.t store) :
  PlaneMixin.__init__ base_init calc_plane_angles plane domain side distance plane_offset
    fundamental orthogonal planar_transform hrir_offset hrir_scaling hrir_samplerate
    hrir_length hrir_min_phase hrir_role other_specs kw = Ok self ->
  In (PlaneMixin._plane self) ["horizontal"; "median"; "frontal"; "vertical"; "interaural"] /\
  PlaneMixin._plane self = plane /\
  PlaneMixin._plane_offset self = plane_offset /\
  PlaneMixin._domain self = domain /\
  PlaneMixin._planar_transform self = planar_transform /\
  PlaneMixin.plane_angles self =
    calc_plane_angles (PlaneMixin._planar_transform self)
      (fundamental_angles (PlaneMixin.view self))
      (orthogonal_angles (PlaneMixin.view self)) (_selection_mask (PlaneMixin.view self)).
Proof.
  intros Hc. destruct (PlaneMixin_inversion _ _ _ _ _ _ _ _ _ _ _ _ _ _ _ _ _ Hc)
    as (Hin & _ & _ & Hp & Ho & Hd & Ht & Ha).
  rewrite Hp, Ho, Hd, Ht, Ha. repeat split.
  unfold str_in in Hin. apply existsb_exists in Hin. destruct Hin as (x & Hx & Heq).
  apply String.eqb_eq in Heq. now subst.
Qed.

(** X17. Of two writes of [positive_angles] the last one counts, and on a
    facade whose plane angles are those of its transform (as after
    construction) writing the value that the flag already has changes
    nothing; so writing a value and then the old one back restores the
    facade. *)
Theorem positive_angles_writes (self : PlaneMixin.t store) (v w : bool) :
  let set := PlaneMixin.set_positive_angles calc_plane_angles in
  set (set self v) w = set self w /\
  (PlaneMixin.plane_angles self =
     calc_plane_angles (PlaneMixin._planar_transform self)
       (fundamental_angles (PlaneMixin.view self))
       (orthogonal_angles (PlaneMixin.view self)) (_selection_mask (PlaneMixin.view self)) ->
   set self (PlaneMixin.get_positive_angles self) = self /\
   set (set self v) (PlaneMixin.get_positive_angles self) = self).
Proof.
  cbv zeta. split; [reflexivity|].
  destruct self as [p o d [c tp to pos] vw pa].
  unfold PlaneMixin.set_positive_angles, PlaneMixin.get_positive_angles,
    with_positive_angles. cbn. intros ->. split; reflexivity.
Qed.

Lemma split_head_role (hrir_role : string) :
  In hrir_role ["features"; "target"; "group"] ->
  split_head "_spec" (hrir_role ++ "_spec") = hrir_role.
Proof. intros [<-|[<-|[<-|[]]]]; reflexivity. Qed.

(** X18. For the roles features, target and group, the other
    specifications can never replace the HRIR specification: a successful
    construction has called the base class with the HRIR specification
    under the name of the role, followed by the other specifications as
    they were given. *)
Theorem hrirs_spec_passed_on
    (plane domain side : string) (distance : cfg) (plane_offset : Q)
    (fundamental orthogonal : angles) (planar_transform : PlaneTransform)
    (hrir_offset hrir_scaling hrir_samplerate hrir_length : option Q)
    (hrir_min_phase : bool) (hrir_role : string)
    (other_specs : dict specification) (kw : kwargs) (self : PlaneMixin.t store) :
  In hrir_role ["features"; "target"; "group"] ->
  NoDup (keys other_specs) ->
  PlaneMixin.__init__ base_init calc_plane_angles plane domain side distance plane_offset
    fundamental orthogonal planar_transform hrir_offset hrir_scaling hrir_samplerate
    hrir_length hrir_min_phase hrir_role (Some other_specs) kw = Ok self ->
  ~ In (hrir_role ++ "_spec") (keys other_specs) /\
  base_init
    ((hrir_role ++ "_spec",
      PlaneMixin.hrirs_spec domain side distance fundamental orthogonal
        hrir_offset hrir_scaling hrir_samplerate hrir_length hrir_min_phase)
     :: other_specs) kw = Ok (PlaneMixin.view self).
Proof.
  intros Hrole Hnd Hc.
  destruct (PlaneMixin_inversion _ _ _ _ _ _ _ _ _ _ _ _ _ _ _ _ _ Hc)
    as (_ & Htaken & Hbase & _).
  assert (Hfresh : ~ In (hrir_role ++ "_spec") (keys other_specs)).
  { intros Hin. unfold PlaneMixin.role_taken in Htaken.
    pose proof (find_none _ _ Htaken _ Hin) as Hn. cbv beta in Hn.
    rewrite (split_head_role _ Hrole), String.eqb_refl in Hn. discriminate. }
  split; [exact Hfresh|].
  unfold update in Hbase. rewrite fold_set_fresh in Hbase; [exact Hbase|].
  unfold keys. simpl. constructor; assumption.
Qed.

Lemma known_plane_cases (plane : string) :
  str_in plane ["horizontal"; "median"; "frontal"; "vertical"; "interaural"] = true ->
  plane = "horizontal" \/ plane = "median" \/ plane = "frontal" \/ plane = "vertical"
  \/ plane = "interaural".
Proof.
  unfold str_in. intros H. apply existsb_exists in H. destruct H as (x & Hx & Heq).
  apply String.eqb_eq in Heq. subst x. simpl in Hx. intuition.
Qed.

(** X19. On a constructed facade the name of the plane angle and the
    orientation of the polar plot go together: the angle is a roll exactly
    for the frontal plane, a pitch exactly for the median and vertical
    planes, and the plot has its zero in the west and runs clockwise
    exactly when the angle is a pitch. *)
Theorem plane_angle_name_and_orientation
    (plane domain side : string) (distance : cfg) (plane_offset : Q)
    (fundamental orthogonal : angles) (planar_transform : PlaneTransform)
    (hrir_offset hrir_scaling hrir_samplerate hrir_length : option Q)
    (hrir_min_phase : bool) (hrir_role : string)
    (other_specs : option (dict specification)) (kw : kwargs) (self : PlaneMixin.t store) :
  PlaneMixin.__init__ base_init calc_plane_angles plane domain side distance plane_offset
    fundamental orthogonal planar_transform hrir_offset hrir_scaling hrir_samplerate
    hrir_length hrir_min_phase hrir_role other_specs kw = Ok self ->
  (plane_angle_name self = "roll [°]" <-> plane = "frontal") /\
  (plane_angle_name self = "pitch [°]" <-> plane = "median" \/ plane = "vertical") /\
  (plane_angle_name self = "yaw [°]" <-> plane = "horizontal" \/ plane = "interaural") /\
  (plot_angles_orientation self = ("W", "clockwise") <->
   plane_angle_name self = "pitch [°]") /\
  (plot_angles_orientation self = ("N", "counterclockwise") <->
   plane_angle_name self <> "pitch [°]").
Proof.
  intros Hc. destruct (PlaneMixin_inversion _ _ _ _ _ _ _ _ _ _ _ _ _ _ _ _ _ Hc)
    as (Hin & _ & _ & Hp & _).
  unfold plane_angle_name, plot_angles_orientation. rewrite Hp.
  destruct (known_plane_cases _ Hin) as [-> | [-> | [-> | [-> | ->]]]]; cbn;
    repeat split; intros H; try discriminate; try reflexivity; try congruence;
    try (destruct H; discriminate); auto; try (intros H'; discriminate).
Qed.

Variable format_number : Q -> string.



End Facts.

(** *** The theorems above on the small base class *)

Lemma constructed_facade_witness :
  exists self,
    PlaneMixin.__init__ PlanarFixture.base_init PlanarFixture.calc_plane_angles
      "median" "time" "left" (CStr "farthest") 30 (Some [30]) None
      (InterauralPlaneTransform "median" 30 false) None None None None false
      "features" None tt = Ok self /\
    PlaneMixin._plane self = "median" /\
    PlaneMixin._plane_offset self = 30.
Proof.
  eexists. split; [reflexivity|].
  pose proof (constructed_facade PlanarFixture.base_init PlanarFixture.calc_plane_angles
                "median" "time" "left" (CStr "farthest") 30 (Some [30]) None
                (InterauralPlaneTransform "median" 30 false) None None None None false
                "features" None tt _ eq_refl) as H.
  exact (conj (proj1 (proj2 H)) (proj1 (proj2 (proj2 H)))).
Defined.

Lemma positive_angles_writes_witness :
  exists self,
    PlaneMixin.__init__ PlanarFixture.base_init PlanarFixture.calc_plane_angles
      "median" "time" "left" (CStr "farthest") 30 (Some [30]) None
      (InterauralPlaneTransform "median" 30 false) None None None None false
      "features" None tt = Ok self /\
    PlaneMixin.set_positive_angles PlanarFixture.calc_plane_angles
      (PlaneMixin.set_positive_angles PlanarFixture.calc_plane_angles self true)
      (PlaneMixin.get_positive_angles self) = self.
Proof.
  eexists. split; [reflexivity|].
  match goal with
  | |- PlaneMixin.set_positive_angles _ (PlaneMixin.set_positive_angles _ ?s _) _ = _ =>
      exact (proj2 (proj2 (positive_angles_writes PlanarFixture.calc_plane_angles
                             s true true) eq_refl))
  end.
Defined.

Lemma hrirs_spec_passed_on_witness :
  exists self,
    PlaneMixin.__init__ PlanarFixture.base_init PlanarFixture.calc_plane_angles
      "median" "time" "left" (CStr "farthest") 30 (Some [30]) None
      (InterauralPlaneTransform "median" 30 false) None None None None false
      "features" (Some [("target_spec", [("subject", [])])]) tt = Ok self /\
    ~ In ("features" ++ "_spec") (keys [("target_spec", [("subject", ([] : dict cfg))])]).
Proof.
  eexists. split; [reflexivity|].
  refine (proj1 (hrirs_spec_passed_on PlanarFixture.base_init
                   PlanarFixture.calc_plane_angles
                   "median" "time" "left" (CStr "farthest") 30 (Some [30]) None
                   (InterauralPlaneTransform "median" 30 false) None None None None false
                   "features" [("target_spec", [("subject", [])])] tt _ _ _ eq_refl)).
  - simpl. auto.
  - repeat constructor. simpl. tauto.
Defined.

Lemma plane_angle_name_and_orientation_witness :
  exists self,
    PlaneMixin.__init__ PlanarFixture.base_init PlanarFixture.calc_plane_angles
      "median" "time" "left" (CStr "farthest") 30 (Some [30]) None
      (InterauralPlaneTransform "median" 30 false) None None None None false
      "features" None tt = Ok self /\
    (plot_angles_orientation self = ("W", "clockwise") <->
     plane_angle_name self = "pitch [°]").
Proof.
  eexists. split; [reflexivity|].
  exact (proj1 (proj2 (proj2 (proj2
           (plane_angle_name_and_orientation PlanarFixture.base_init
              PlanarFixture.calc_plane_angles
              "median" "time" "left" (CStr "farthest") 30 (Some [30]) None
              (InterauralPlaneTransform "median" 30 false) None None None None false
              "features" None tt _ eq_refl))))).
Defined.


End FacadeFacts.

(** ** More scenarios *)

Module FacadeScenarios.
Import Planar PlanarExt.

(** ['both-left'.replace('-', ' ').title()] and the titles of a facade for
    the median plane at offset 30 *)
Example titles :
  title (dashes_to_spaces "both-left") = "Both Left" /\
  title "hORIZONTAL plane" = "Horizontal Plane" /\
  (exists self,
     PlaneMixin.InterauralPlaneMixin__init__ PlanarFixture.base_init
       PlanarFixture.calc_plane_angles PlanarFixture.util "median" "time" "left"
       None 30 false (CStr "farthest") None None None None false "features" None tt
       = Ok self /\
     plot_angles_title (fun _ => "30.0") self
       = "Angles in the Median Plane With Offset 30.0°" /\
     plane_angle_name self = "pitch [°]" /\
     plot_plane_title (fun _ => "30.0") (fun _ => "3") self 0 = Raise IndexError).
Proof. repeat split. eexists. repeat split. Qed.

(** the sample rate and length of the last specification with ['hrirs'] *)
Example samplerate_and_length :
  FullExt._get_samplerate_and_length_from_spec
    (Some [("hrirs", [("samplerate", Full.CNum 44100)])])
    None
    (Some [("hrirs", [("length", Full.CNum 256)])])
  = (Full.CNone, Full.CNum 256) /\
  FullExt._get_samplerate_and_length_from_spec (Some [("subject", [])]) None None
  = (Full.CNone, Full.CNone).
Proof. split; reflexivity. Qed.

End FacadeScenarios.
